(** * The UDP broadcast listener of [client_class_w_selectors_papermill.ipynb]

    A shallow embedding of the class [UDP_Client]: the receive handler
    [handle_received_data], the exit check [should_exit], the event loop
    [run_client] and [cleanup].

    Python objects that cross the boundary of the class are modelled as
    follows.
    - Numbers are [pynum]: an [int], a [bool] (a subclass of [int]) or a
      [float] (an IEEE double, [spec_float]).  Python compares numbers of
      different kinds by their exact value, which [num_val] computes.
    - The result of [json.loads] is a [json] value; a JSON object is a
      dictionary, a [gmap] from strings.
    - The calls into the operating system and the library ([recvfrom],
      [bytes.decode], [json.loads], [datetime.now], [sendto], [select],
      [time.time]) are oracles: each invocation is handed the outcomes of the
      calls it makes.  [KeyboardInterrupt] is delivered at the calls that wait
      on the operating system ([recvfrom], [sendto], [select]).
    - [print] is a total operation that appends a [notice] to the log of
      effects; the waiting indicator of [run_client], which only writes to the
      console, is left out. *)

From Stdlib Require Import ZArith QArith Floats.SpecFloat.
From stdpp Require Import gmap strings list pretty.

Set Warnings "-register-all".
Local Open Scope Z_scope.

(** ** Numbers *)

(** A Python number as [json.loads] builds it. *)
Inductive pynum : Type :=
| PInt (z : Z)
| PBool (b : bool)
| PFloat (f : spec_float).

(** The exact value of a number: a rational, an infinity, or no value at all
    (NaN). *)
Inductive xreal : Type :=
| XNaN
| XNegInf
| XFin (q : Q)
| XPosInf.

Definition float_val (f : spec_float) : xreal :=
  match f with
  | S754_zero _ => XFin (inject_Z 0)
  | S754_infinity false => XPosInf
  | S754_infinity true => XNegInf
  | S754_nan => XNaN
  | S754_finite s m e =>
      let mag := (inject_Z (Z.pos m) * Qpower (inject_Z 2) e)%Q in
      XFin (if s then Qopp mag else mag)
  end.

Definition num_val (n : pynum) : xreal :=
  match n with
  | PInt z => XFin (inject_Z z)
  | PBool b => XFin (inject_Z (if b then 1 else 0))
  | PFloat f => float_val f
  end.

(** [a > b] on exact values; a comparison with NaN is [False]. *)
Definition xgtb (a b : xreal) : bool :=
  match a, b with
  | XNaN, _ | _, XNaN => false
  | XPosInf, XPosInf => false
  | XPosInf, _ => true
  | _, XPosInf => false
  | XNegInf, _ => false
  | XFin _, XNegInf => true
  | XFin p, XFin q => match Qcompare p q with Gt => true | _ => false end
  end.

(** [a >= b] on exact values. *)
Definition xgeb (a b : xreal) : bool :=
  match a, b with
  | XNaN, _ | _, XNaN => false
  | XPosInf, _ => true
  | _, XNegInf => true
  | _, XPosInf => false
  | XNegInf, _ => false
  | XFin p, XFin q => match Qcompare p q with Lt => false | _ => true end
  end.

(** Python's [a > b] and [a >= b] between numbers. *)
Definition num_gt (a b : pynum) : bool := xgtb (num_val a) (num_val b).
Definition num_ge (a b : pynum) : bool := xgeb (num_val a) (num_val b).

(** Python's [a == b] between numbers. *)
Definition num_eq (a b : pynum) : bool := xgeb (num_val a) (num_val b) && xgeb (num_val b) (num_val a).

(** The order of exact values, as propositions. *)
Definition xlt (a b : xreal) : Prop :=
  match a, b with
  | XNaN, _ | _, XNaN => False
  | _, XNegInf => False
  | XNegInf, _ => True
  | XPosInf, _ => False
  | XFin _, XPosInf => True
  | XFin p, XFin q => (p < q)%Q
  end.

Definition xle (a b : xreal) : Prop :=
  match a, b with
  | XNaN, _ | _, XNaN => False
  | XNegInf, _ => True
  | _, XPosInf => True
  | _, XNegInf => False
  | XPosInf, _ => False
  | XFin p, XFin q => (p <= q)%Q
  end.

Definition num_lt (a b : pynum) : Prop := xlt (num_val a) (num_val b).
Definition num_le (a b : pynum) : Prop := xle (num_val a) (num_val b).

(** [time.time() - self.start_time]: the difference of two doubles. *)
Definition float_sub (a b : spec_float) : spec_float := SFsub 53 1024 a b.

(** ** JSON values *)

(** What [json.loads] returns: [None], a number ([true] and [false] are the
    [bool]s), a [str], a [list] or a [dict]. *)
Inductive json : Type :=
| JNull
| JNum (n : pynum)
| JStr (s : string)
| JArr (l : list json)
| JObj (m : gmap string json).

(** ** Exceptions *)

Inductive exn : Type :=
| KeyboardInterrupt
| JSONDecodeError
| UnicodeDecodeError
| RecursionError
| AttributeError
| TypeError
| KeyError
| ValueError
| OSError.

(** [except Exception] catches every class but [KeyboardInterrupt], which
    derives from [BaseException] directly. *)
Definition is_Exception (e : exn) : bool :=
  match e with
  | KeyboardInterrupt => false
  | _ => true
  end.

Inductive outcome (A : Type) : Type :=
| Return (a : A)
| Raise (e : exn).
Arguments Return {A} a.
Arguments Raise {A} e.

(** ** The data of a session *)

(** One entry of [self.received_messages]. *)
Record ReceivedRecord : Type := mkRecord {
  server_ip : string;
  server_port : Z;
  timestamp : json;
  receive_time : string;
  state : json;
  message_id : pynum
}.

(** A value stored in [self.execution_stats]: a string, a number, or the
    list [self.received_messages].  [cleanup] stores the list object itself,
    not a copy of it, so the entry has no content of its own: [StatMessages]
    is the list that the attribute [received_messages] of the object is bound
    to.  The attribute is bound once, in [__init__], and the list only grows
    by [append]. *)
Inductive stat : Type :=
| StatStr (s : string)
| StatNum (n : pynum)
| StatMessages.

(** What an entry of [execution_stats] holds when it is read. *)
Inductive stat_value : Type :=
| ValStr (s : string)
| ValNum (n : pynum)
| ValRecords (l : list ReceivedRecord).

(** The instance attributes of [UDP_Client].  The selector and the two
    sockets are represented by what [cleanup] changes about them.
    [last_processed_id] is a number: [__init__] stores [-1], and the only
    other assignment stores a [message_id] for which
    [message_id > self.last_processed_id] returned [True], which against a
    number only a number does. *)
Record UDP_Client : Type := mkClient {
  client_id : string;
  client_port : Z;
  max_runtime : pynum;
  max_messages : pynum;
  registered : bool;
  selector_open : bool;
  client_socket_open : bool;
  response_socket_open : bool;
  received_messages : list ReceivedRecord;
  last_processed_id : pynum;
  start_time : option spec_float;
  execution_stats : gmap string stat
}.

Definition set_last_processed_id (n : pynum) (c : UDP_Client) : UDP_Client :=
  mkClient (client_id c) (client_port c) (max_runtime c) (max_messages c)
    (registered c) (selector_open c) (client_socket_open c) (response_socket_open c)
    (received_messages c) n (start_time c) (execution_stats c).

Definition set_received_messages (l : list ReceivedRecord) (c : UDP_Client) : UDP_Client :=
  mkClient (client_id c) (client_port c) (max_runtime c) (max_messages c)
    (registered c) (selector_open c) (client_socket_open c) (response_socket_open c)
    l (last_processed_id c) (start_time c) (execution_stats c).

Definition set_start_time (t : spec_float) (c : UDP_Client) : UDP_Client :=
  mkClient (client_id c) (client_port c) (max_runtime c) (max_messages c)
    (registered c) (selector_open c) (client_socket_open c) (response_socket_open c)
    (received_messages c) (last_processed_id c) (Some t) (execution_stats c).

Definition set_stat (k : string) (v : stat) (c : UDP_Client) : UDP_Client :=
  mkClient (client_id c) (client_port c) (max_runtime c) (max_messages c)
    (registered c) (selector_open c) (client_socket_open c) (response_socket_open c)
    (received_messages c) (last_processed_id c) (start_time c)
    (<[k := v]> (execution_stats c)).

(** [self.execution_stats] as it reads at the moment: the entry that is the
    list [self.received_messages] holds the records the object has now. *)
Definition read_stat (c : UDP_Client) (v : stat) : stat_value :=
  match v with
  | StatStr s => ValStr s
  | StatNum n => ValNum n
  | StatMessages => ValRecords (received_messages c)
  end.

Definition read_stats (c : UDP_Client) : gmap string stat_value :=
  read_stat c <$> execution_stats c.

(** The selector and the sockets after [unregister] and the three [close]
    calls of [cleanup]. *)
Definition release (c : UDP_Client) : UDP_Client :=
  mkClient (client_id c) (client_port c) (max_runtime c) (max_messages c)
    false false false false
    (received_messages c) (last_processed_id c) (start_time c) (execution_stats c).

(** ** Effects *)

(** The lines a [print] statement writes, by the statement that writes them. *)
Inductive notice : Type :=
| NStarted (cid : string) (port : Z) (mr mm : pynum)
| NReceived (ip : string) (port : Z) (mid : pynum) (ts st : json)
| NTotal (n : nat)
| NLastFive (states : list json)
| NInvalidJson
| NError (e : exn)
| NMaxRuntime (mr : pynum)
| NMaxMessages (mm : pynum)
| NInterrupt
| NStopped
| NSummary (cid : string) (runtime : spec_float) (n : nat).

Inductive effect : Type :=
| RecvFrom (bufsize : Z)
| Printed (n : notice)
| SendTo (data : string) (ip : string) (port : Z).

(** ** Computations over a session

    A method call maps the object to its outcome, the object as the call left
    it, and the effects performed.  An exception leaves the assignments made
    before it in place. *)
Definition M (A : Type) : Type := UDP_Client → outcome A * UDP_Client * list effect.

#[export] Instance M_ret : MRet M := λ A a c, (Return a, c, []).
#[export] Instance M_bind : MBind M := λ A B f m c,
  match m c with
  | (Return a, c', out) =>
      match f a c' with
      | (r, c'', out') => (r, c'', out ++ out')
      end
  | (Raise e, c', out) => (Raise e, c', out)
  end.

Definition raise {A : Type} (e : exn) : M A := λ c, (Raise e, c, []).
Definition attr {A : Type} (f : UDP_Client → A) : M A := λ c, (Return (f c), c, []).
Definition assign (f : UDP_Client → UDP_Client) : M unit := λ c, (Return tt, f c, []).
Definition perform (e : effect) : M unit := λ c, (Return tt, c, [e]).
Definition print (n : notice) : M unit := perform (Printed n).

(** The outcome of a library call, as the caller sees it. *)
Definition called {A : Type} (o : outcome A) : M A := λ c, (o, c, []).

(** [try: body except JSONDecodeError: h1 except Exception as e: h2 e]. *)
Definition try_except (body : M unit) (on_json : M unit) (on_exception : exn → M unit) : M unit :=
  λ c,
    match body c with
    | (Return tt, c', out) => (Return tt, c', out)
    | (Raise e, c', out) =>
        let handler :=
          match e with
          | JSONDecodeError => on_json
          | _ => if is_Exception e then on_exception e else raise e
          end in
        match handler c' with
        | (r, c'', out') => (r, c'', out ++ out')
        end
    end.

Definition result_of {A : Type} (x : outcome A * UDP_Client * list effect) : outcome A := x.1.1.
Definition object_of {A : Type} (x : outcome A * UDP_Client * list effect) : UDP_Client := x.1.2.
Definition effects_of {A : Type} (x : outcome A * UDP_Client * list effect) : list effect := x.2.

(** ** What one invocation of the handler is handed *)

(** The bytes of a datagram, seen through [data.decode('utf-8')] and
    [json.loads]. *)
Inductive payload : Type :=
| Undecodable
| Unparsable (e : exn)
| Parsed (message : json).

Record datagram : Type := mkDatagram {
  data : payload;
  addr : string * Z
}.

Record handler_env : Type := mkEnv {
  recvfrom : outcome datagram;
  now_isoformat : string;
  sendto : outcome unit
}.

(** [json.loads(data.decode('utf-8'))]. *)
Definition loads (p : payload) : M json :=
  match p with
  | Undecodable => raise UnicodeDecodeError
  | Unparsable e => raise e
  | Parsed message => mret message
  end.

(** [message.get(key, default)]: only a [dict] has the method. *)
Definition get (message : json) (key : string) (fallback : json) : M json :=
  match message with
  | JObj m => mret (default fallback (m !! key))
  | _ => raise AttributeError
  end.

(** The left operand of [message_id > self.last_processed_id]: the right one
    is a number, so the comparison is between numbers or a [TypeError]. *)
Definition number (v : json) : M pynum :=
  match v with
  | JNum n => mret n
  | _ => raise TypeError
  end.

(** "Decode and parse the message" and "Extract timestamp and state": the
    statements of the handler from [data.decode] to the last [message.get]. *)
Definition decode_message (p : payload) : M (json * json * json) :=
  message ← loads p;
  ts ← get message "timestamp" (JStr "unknown");
  st ← get message "state" (JStr "unknown");
  mid ← get message "message_id" (JNum (PInt (-1)));
  mret (ts, st, mid).

Section Client.

(** [repr] of a [float], as an f-string renders it.  CPython prints the
    shortest decimal that reads back as the same double; the development
    does not depend on which string that is. *)
Variable float_repr : spec_float → string.

(** [str(n)] of a number. *)
Definition py_str (n : pynum) : string :=
  match n with
  | PInt z => pretty z
  | PBool true => "True"
  | PBool false => "False"
  | PFloat f => float_repr f
  end.

(** The acknowledgment: [f"Client {self.client_id} received message {message_id}"]. *)
Definition response (cid : string) (mid : pynum) : string :=
  "Client " +:+ cid +:+ " received message " +:+ py_str mid.

(** ** [handle_received_data] *)

(** The body of the [if message_id > self.last_processed_id] statement. *)
Definition process (env : handler_env) (ip : string) (port : Z)
    (ts st : json) (mid : pynum) : M unit :=
  assign (set_last_processed_id mid);;
  let receive_time := now_isoformat env in
  print (NReceived ip port mid ts st);;
  msgs ← attr received_messages;
  assign (set_received_messages (msgs ++ [mkRecord ip port ts receive_time st mid]));;
  cid ← attr client_id;
  perform (SendTo (response cid mid) ip port);;
  called (sendto env);;
  msgs ← attr received_messages;
  print (NTotal (length msgs));;
  if decide (5 ≤ length msgs)%nat
  then print (NLastFive (state <$> drop (length msgs - 5) msgs))
  else mret tt.

Definition handle_received_data (env : handler_env) : M unit :=
  try_except
    (perform (RecvFrom 1024);;
     d ← called (recvfrom env);
     let server_ip := (addr d).1 in
     let server_port := (addr d).2 in
     '(ts, st, mid) ← decode_message (data d);
     last ← attr last_processed_id;
     n ← number mid;
     if num_gt n last
     then process env server_ip server_port ts st n
     else mret tt)
    (print NInvalidJson)
    (λ e, print (NError e)).

(** ** [should_exit] *)

Definition should_exit (elapsed_time : pynum) : M bool :=
  mr ← attr max_runtime;
  if num_gt mr (PInt 0) && num_gt elapsed_time mr
  then print (NMaxRuntime mr);; mret true
  else
    mm ← attr max_messages;
    msgs ← attr received_messages;
    if num_gt mm (PInt 0) && num_ge (PInt (Z.of_nat (length msgs))) mm
    then print (NMaxMessages mm);; mret true
    else mret false.

(** ** [__init__] and [_initialize_sockets] *)

(** The sockets are created, the receiving one is bound and registered with
    the selector.  This is the call in which [socket], [bind] and [register]
    succeed; one of them failing leaves no object behind. *)
Definition _initialize_sockets (c : UDP_Client) : UDP_Client * list effect :=
  (mkClient (client_id c) (client_port c) (max_runtime c) (max_messages c)
     true true true true
     (received_messages c) (last_processed_id c) (start_time c) (execution_stats c),
   [Printed (NStarted (client_id c) (client_port c) (max_runtime c) (max_messages c))]).

(** [uuid8] is [str(uuid.uuid4())[:8]]; it replaces a [client_id] that is
    [None] or empty. *)
Definition __init__ (uuid8 : string) (cid : option string) (port : Z)
    (mr mm : pynum) : UDP_Client * list effect :=
  let cid := match cid with
             | Some s => if decide (s = "") then uuid8 else s
             | None => uuid8
             end in
  _initialize_sockets
    (mkClient cid port mr mm false true false false [] (PInt (-1)) None
       (<["port" := StatNum (PInt port)]> (<["client_id" := StatStr cid]> ∅))).

(** ** [cleanup] *)

Record clock : Type := mkClock {
  time_time : spec_float;
  isoformat : string
}.

(** [time.time() - self.start_time]. *)
Definition since_start (now : spec_float) : M spec_float :=
  t0 ← attr start_time;
  match t0 with
  | Some t0 => mret (float_sub now t0)
  | None => raise TypeError
  end.

(** [self.selector.unregister(self.client_socket)] and the three [close]
    calls that follow it.  For a socket that is not registered, [unregister]
    raises [KeyError] when the socket is open, and [ValueError] when it has no
    file descriptor to look up: it is closed, as after an earlier [cleanup],
    or still [None]. *)
Definition unregister_and_close : M unit :=
  reg ← attr registered;
  if (reg : bool) then assign release
  else
    sock_open ← attr client_socket_open;
    if (sock_open : bool) then raise KeyError else raise ValueError.

Definition cleanup (now : clock) : M (gmap string stat) :=
  assign (set_stat "end_time" (StatStr (isoformat now)));;
  runtime ← since_start (time_time now);
  assign (set_stat "runtime_seconds" (StatNum (PFloat runtime)));;
  msgs ← attr received_messages;
  assign (set_stat "messages_received" (StatNum (PInt (Z.of_nat (length msgs)))));;
  unregister_and_close;;
  print NStopped;;
  cid ← attr client_id;
  msgs ← attr received_messages;
  print (NSummary cid runtime (length msgs));;
  assign (set_stat "received_messages" StatMessages);;
  attr execution_stats.

(** ** [run_client] *)

(** One turn of the [while True] loop: the clock it reads and what
    [self.selector.select(timeout=0.05)] does. *)
Record iteration : Type := mkIteration {
  current_time : spec_float;
  select : outcome (list handler_env)
}.

(** [for key, mask in events: callback(key.fileobj, mask)]: the only callback
    registered is [handle_received_data]. *)
Fixpoint dispatch (events : list handler_env) : M unit :=
  match events with
  | [] => mret tt
  | ev :: events => handle_received_data ev;; dispatch events
  end.

(** How the loop stands when the given turns are used up: it has reached
    [break], or it is still turning. *)
Inductive loop : Type :=
| Broke
| Turning.

Fixpoint event_loop (turns : list iteration) : M loop :=
  match turns with
  | [] => mret Turning
  | turn :: turns =>
      elapsed_time ← since_start (current_time turn);
      stop ← should_exit (PFloat elapsed_time);
      if (stop : bool) then mret Broke
      else
        events ← called (select turn);
        dispatch events;;
        event_loop turns
  end.

Record run_env : Type := mkRun {
  started : clock;
  turns : list iteration;
  stopped : clock
}.

(** The listener after [run_client] has consumed the given turns: still in
    its loop, or past [cleanup] with the outcome of the call. *)
Inductive run_state : Type :=
| RUNNING (c : UDP_Client) (out : list effect)
| STOPPED (r : outcome unit) (c : UDP_Client) (out : list effect).

Definition run_client (env : run_env) (c : UDP_Client) : run_state :=
  let body : M loop :=
    assign (set_start_time (time_time (started env)));;
    assign (set_stat "start_time" (StatStr (isoformat (started env))));;
    event_loop (turns env) in
  match body c with
  | (Return Turning, c1, out1) => RUNNING c1 out1
  | (r, c1, out1) =>
      (* except KeyboardInterrupt *)
      let '(r2, c2, out2) :=
        match r with
        | Raise KeyboardInterrupt => print NInterrupt c1
        | Raise e => (Raise e, c1, [])
        | Return _ => (Return tt, c1, [])
        end in
      (* finally *)
      match cleanup (stopped env) c2 with
      | (Return _, c3, out3) => STOPPED r2 c3 (out1 ++ out2 ++ out3)
      | (Raise e, c3, out3) => STOPPED (Raise e) c3 (out1 ++ out2 ++ out3)
      end
  end.

(** ** Observations on a call *)

(** The datagrams handed to [sendto], in order. *)
Definition acks (out : list effect) : list (string * string * Z) :=
  omap (λ e, match e with SendTo payload ip port => Some (payload, ip, port) | _ => None end) out.

(** The [recvfrom] calls, by their buffer size. *)
Definition receives (out : list effect) : list Z :=
  omap (λ e, match e with RecvFrom bufsize => Some bufsize | _ => None end) out.

(** The error notices printed by the two [except] clauses. *)
Definition error_notices (out : list effect) : list notice :=
  omap (λ e, match e with
             | Printed NInvalidJson => Some NInvalidJson
             | Printed (NError x) => Some (NError x)
             | _ => None
             end) out.

(** [message_id > last] is [True]. *)
Definition newer (mid : json) (last : pynum) : Prop :=
  ∃ n, mid = JNum n ∧ num_gt n last = true.

(** The fields the handler reads from a JSON object. *)
Definition field (m : gmap string json) (key : string) (fallback : json) : json :=
  default fallback (m !! key).
Definition timestamp_of (m : gmap string json) : json := field m "timestamp" (JStr "unknown").
Definition state_of (m : gmap string json) : json := field m "state" (JStr "unknown").
Definition message_id_of (m : gmap string json) : json := field m "message_id" (JNum (PInt (-1))).

(** The JSON object with the defaults written into the fields it lacks. *)
Definition with_defaults (m : gmap string json) : gmap string json :=
  <["timestamp" := timestamp_of m]>
    (<["state" := state_of m]> (<["message_id" := message_id_of m]> m)).

(** The invocation receives the datagram [d], whose payload decodes to the
    JSON object [m]. *)
Definition delivers (env : handler_env) (d : datagram) (m : gmap string json) : Prop :=
  recvfrom env = Return d ∧ data d = Parsed (JObj m).

(** The record the handler builds for an accepted message, the session with
    that record accepted, and the acknowledgment that answers it. *)
Definition record_of (env : handler_env) (d : datagram) (m : gmap string json)
    (n : pynum) : ReceivedRecord :=
  mkRecord (addr d).1 (addr d).2 (timestamp_of m) (now_isoformat env) (state_of m) n.

Definition accept (r : ReceivedRecord) (s : UDP_Client) : UDP_Client :=
  set_received_messages (received_messages s ++ [r])
    (set_last_processed_id (message_id r) s).

Definition ack_of (cid : string) (r : ReceivedRecord) : string * string * Z :=
  (response cid (message_id r), server_ip r, server_port r).

(** What the handler does after [sendto] has been called for the record [r]. *)
Definition after_send (env : handler_env) (s : UDP_Client) : outcome unit * list effect :=
  match sendto env with
  | Return _ =>
      (Return tt,
       Printed (NTotal (length (received_messages s))) ::
       if decide (5 ≤ length (received_messages s))%nat
       then [Printed (NLastFive (state <$> drop (length (received_messages s) - 5)
                                            (received_messages s)))]
       else [])
  | Raise JSONDecodeError => (Return tt, [Printed NInvalidJson])
  | Raise e => if is_Exception e then (Return tt, [Printed (NError e)]) else (Raise e, [])
  end.

(** A run of accepted records: each id is greater than the one before, the
    first greater than [last]. *)
Fixpoint chain (last : pynum) (rs : list ReceivedRecord) : Prop :=
  match rs with
  | [] => True
  | r :: rs => num_gt (message_id r) last = true ∧ chain (message_id r) rs
  end.

Definition accept_all (rs : list ReceivedRecord) (s : UDP_Client) : UDP_Client :=
  foldl (λ s r, accept r s) s rs.

(** The id of the last of [rs], or [last] when there is none. *)
Definition last_id (last : pynum) (rs : list ReceivedRecord) : pynum :=
  foldl (λ _ r, message_id r) last rs.

(** The greatest id among [last] and the ids of [rs], scanning in order. *)
Definition max_id (last : pynum) (rs : list ReceivedRecord) : pynum :=
  foldl (λ acc r, if num_gt (message_id r) acc then message_id r else acc) last rs.

(** The records whose id equals [n]. *)
Definition with_id (n : pynum) (rs : list ReceivedRecord) : list ReceivedRecord :=
  filter (λ r, num_eq (message_id r) n = true) rs.

(** Everything of the object but [received_messages] and
    [last_processed_id]. *)
Definition frame (s : UDP_Client) :=
  (client_id s, client_port s, max_runtime s, max_messages s,
   registered s, selector_open s, client_socket_open s, response_socket_open s,
   start_time s, execution_stats s).

(** The condition under which [should_exit] returns [True]. *)
Definition bound_reached (elapsed_time : pynum) (s : UDP_Client) : bool :=
  num_gt (max_runtime s) (PInt 0) && num_gt elapsed_time (max_runtime s)
  || num_gt (max_messages s) (PInt 0)
     && num_ge (PInt (Z.of_nat (length (received_messages s)))) (max_messages s).

(** The object as [run_client] enters its loop. *)
Definition begin (env : run_env) (c : UDP_Client) : UDP_Client :=
  set_stat "start_time" (StatStr (isoformat (started env)))
    (set_start_time (time_time (started env)) c).

(** The object as [cleanup] leaves it. *)
Definition cleaned (now : clock) (runtime : spec_float) (c : UDP_Client) : UDP_Client :=
  set_stat "received_messages" StatMessages
    (release
       (set_stat "messages_received" (StatNum (PInt (Z.of_nat (length (received_messages c)))))
          (set_stat "runtime_seconds" (StatNum (PFloat runtime))
             (set_stat "end_time" (StatStr (isoformat now)) c)))).

(** What [cleanup] prints. *)
Definition summary (runtime : spec_float) (c : UDP_Client) : list effect :=
  [Printed NStopped;
   Printed (NSummary (client_id c) runtime (length (received_messages c)))].

(** [time.time() - self.start_time] when [cleanup] runs. *)
Definition runtime_seconds (env : run_env) : spec_float :=
  float_sub (time_time (stopped env)) (time_time (started env)).

(** The run with further turns of the loop. *)
Definition extend (env : run_env) (more : list iteration) : run_env :=
  mkRun (started env) (turns env ++ more) (stopped env).

(** [time.time() - self.start_time] in a turn of a run. *)
Definition elapsed (env : run_env) (turn : iteration) : pynum :=
  PFloat (float_sub (current_time turn) (time_time (started env))).

(** The ids of the records grow strictly in the order of appending. *)
Definition increasing (rs : list ReceivedRecord) : Prop :=
  ∀ (i j : nat) (a b : ReceivedRecord),
    (i < j)%nat → rs !! i = Some a → rs !! j = Some b →
    num_gt (message_id b) (message_id a) = true.

(** [last_processed_id] is the id of the last record, or [-1] while there is
    none, and the ids of the records grow strictly. *)
Definition ratchet_inv (s : UDP_Client) : Prop :=
  increasing (received_messages s)
  ∧ last_processed_id s = last_id (PInt (-1)) (received_messages s).

Definition client_of (r : run_state) : UDP_Client :=
  match r with
  | RUNNING c _ => c
  | STOPPED _ c _ => c
  end.

(** The objects that the constructor and the methods of the class produce. *)
Inductive reachable : UDP_Client → Prop :=
| reach_init (uuid8 : string) (cid : option string) (port : Z) (mr mm : pynum) :
    reachable (__init__ uuid8 cid port mr mm).1
| reach_handle (s : UDP_Client) (env : handler_env) :
    reachable s → reachable (object_of (handle_received_data env s))
| reach_should_exit (s : UDP_Client) (elapsed_time : pynum) :
    reachable s → reachable (object_of (should_exit elapsed_time s))
| reach_cleanup (s : UDP_Client) (now : clock) :
    reachable s → reachable (object_of (cleanup now s))
| reach_run_client (s : UDP_Client) (env : run_env) :
    reachable s → reachable (client_of (run_client env s)).

(** A payload that does not conform to the wire format: bytes that are not
    UTF-8, text that [json.loads] refuses, JSON that is not an object, or an
    object whose [message_id] is not a number. *)
Inductive nonconforming : payload → Prop :=
| not_text : nonconforming Undecodable
| not_json (e : exn) : is_Exception e = true → nonconforming (Unparsable e)
| not_object (v : json) : (∀ m, v ≠ JObj m) → nonconforming (Parsed v)
| not_number (m : gmap string json) :
    (∀ n, message_id_of m ≠ JNum n) → nonconforming (Parsed (JObj m)).

(** ** A session to compute with *)

(** A rendering of floats for the closed examples below, none of which
    formats a float. *)
Definition no_float_repr (f : spec_float) : string := "".

Definition sample_message (n : Z) : gmap string json :=
  <["message_id" := JNum (PInt n)]>
    (<["state" := JStr "ACTIVE"]>
       (<["timestamp" := JStr "2025-03-01T10:00:00"]> ∅)).

Definition sample_datagram (n : Z) : datagram :=
  mkDatagram (Parsed (JObj (sample_message n))) ("192.168.1.10", 50000).

(** An invocation that receives the message with id [n]. *)
Definition sample_env (n : Z) : handler_env :=
  mkEnv (Return (sample_datagram n)) "2025-03-01T10:00:01" (Return tt).

(** A message without [message_id]. *)
Definition sample_anonymous : handler_env :=
  mkEnv (Return (mkDatagram (Parsed (JObj (<["state" := JStr "ACTIVE"]> ∅)))
                   ("192.168.1.10", 50000)))
    "2025-03-01T10:00:01" (Return tt).

(** A message with nothing but its [message_id]. *)
Definition sample_bare (n : Z) : handler_env :=
  mkEnv (Return (mkDatagram (Parsed (JObj (<["message_id" := JNum (PInt n)]> ∅)))
                   ("192.168.1.10", 50000)))
    "2025-03-01T10:00:01" (Return tt).

(** Bytes that are not UTF-8. *)
Definition sample_garbage : handler_env :=
  mkEnv (Return (mkDatagram Undecodable ("192.168.1.10", 50000)))
    "2025-03-01T10:00:01" (Return tt).

(** Text that [json.loads] refuses. *)
Definition sample_invalid_json : handler_env :=
  mkEnv (Return (mkDatagram (Unparsable JSONDecodeError) ("192.168.1.10", 50000)))
    "2025-03-01T10:00:01" (Return tt).

(** An accepted message whose acknowledgment cannot be sent. *)
Definition sample_unreachable (n : Z) : handler_env :=
  mkEnv (Return (sample_datagram n)) "2025-03-01T10:00:01" (Raise OSError).

(** A listener with [max_messages = 3]. *)
Definition sample_client : UDP_Client :=
  (__init__ "1a2b3c4d" (Some "listener") 37020 (PInt 300) (PInt 3)).1.

(** A clock reading of [n] seconds. *)
Definition seconds (n : positive) : spec_float := S754_finite false n 0.

Definition sample_turn (t : positive) (events : list handler_env) : iteration :=
  mkIteration (seconds t) (Return events).

(** A run of three turns that receives the ids 0, 1 and 2. *)
Definition sample_run : run_env :=
  mkRun (mkClock (seconds 100) "2025-03-01T10:00:00")
    [sample_turn 101 [sample_env 0]; sample_turn 102 [sample_env 1];
     sample_turn 103 [sample_env 2]]
    (mkClock (seconds 105) "2025-03-01T10:00:05").

(** A run of one turn that receives nothing. *)
Definition idle_run : run_env :=
  mkRun (mkClock (seconds 100) "2025-03-01T10:00:00")
    [sample_turn 101 []]
    (mkClock (seconds 105) "2025-03-01T10:00:05").

Definition effects_so_far (r : run_state) : list effect :=
  match r with
  | RUNNING _ out => out
  | STOPPED _ _ out => out
  end.

(** ** Further observations *)

(** One of the calls the handler makes raises [KeyboardInterrupt]. *)
Definition interrupted (env : handler_env) : Prop :=
  recvfrom env = Raise KeyboardInterrupt
  ∨ (∃ d, recvfrom env = Return d ∧ data d = Unparsable KeyboardInterrupt)
  ∨ sendto env = Raise KeyboardInterrupt.

(** Whatever the calls of the handler raise is of class [Exception]. *)
Definition ordinary (env : handler_env) : Prop :=
  (∀ e, recvfrom env = Raise e → is_Exception e = true)
  ∧ (∀ d e, recvfrom env = Return d → data d = Unparsable e → is_Exception e = true)
  ∧ (∀ e, sendto env = Raise e → is_Exception e = true).

(** A turn in which [select] returns and no handler is interrupted. *)
Definition calm (turn : iteration) : Prop :=
  ∃ events, select turn = Return events ∧ Forall (λ ev, ¬ interrupted ev) events.

(** A turn in which [select] reports at most one ready socket, as it does
    with the one socket that [_initialize_sockets] registers. *)
Definition single (turn : iteration) : Prop :=
  ∀ events, select turn = Return events → (length events ≤ 1)%nat.

(** The state lists of the "Last 5 states" lines. *)
Definition last_five (out : list effect) : list (list json) :=
  omap (λ e, match e with Printed (NLastFive l) => Some l | _ => None end) out.

(** The counts of the "Total messages received" lines. *)
Definition totals (out : list effect) : list nat :=
  omap (λ e, match e with Printed (NTotal n) => Some n | _ => None end) out.

(** The selector and the sockets of an object. *)
Definition resources (s : UDP_Client) : bool * bool * bool * bool :=
  (registered s, selector_open s, client_socket_open s, response_socket_open s).

(** Two JSON objects with the same [timestamp], [state] and [message_id]. *)
Definition same_fields (m m' : gmap string json) : Prop :=
  m !! "timestamp" = m' !! "timestamp"
  ∧ m !! "state" = m' !! "state"
  ∧ m !! "message_id" = m' !! "message_id".

(** An invocation that receives the JSON object [m] from [a]. *)
Definition receiving (m : gmap string json) (a : string * Z) (now : string)
    (send : outcome unit) : handler_env :=
  mkEnv (Return (mkDatagram (Parsed (JObj m)) a)) now send.

(** [float('inf')], which [json.loads] returns for [Infinity]. *)
Definition infinity : pynum := PFloat (S754_infinity false).

(** ** The cell below the class *)

(** The parameters cell, as papermill sets it. *)
Record parameters : Type := mkParameters {
  param_client_id : option string;
  param_max_runtime : pynum;
  param_client_port : Z;
  param_max_messages : pynum
}.

(** The values the cell holds when papermill overrides nothing. *)
Definition default_parameters : parameters :=
  mkParameters None (PInt 300) 37020 (PInt 0).

(** The statements below the class: a [client_id] that is [None] is replaced
    by [uuid_cell], eight characters of a fresh UUID; the client is created
    and run.  The result is what [__init__] printed and the run. *)
Definition notebook (uuid_cell uuid_init : string) (p : parameters) (env : run_env)
    : list effect * run_state :=
  let cid := match param_client_id p with
             | None => uuid_cell
             | Some s => s
             end in
  let '(client, out) :=
    __init__ uuid_init (Some cid) (param_client_port p)
      (param_max_runtime p) (param_max_messages p) in
  (out, run_client env client).

(** [client_results = client.execution_stats]. *)
Definition client_results (r : run_state) : gmap string stat :=
  execution_stats (client_of r).

(** ** The waiting indicator of [run_client]

    [event_loop] leaves the indicator out of the log of effects.  Its
    statements touch only the locals [indicator_index] and
    [last_indicator_time] and the console; they are modelled here on their
    own, over those locals. *)

Definition waiting_indicator : list string := ["|"; "/"; "-"; "*"].

(** [int(x)] of a float: the value cut towards zero; no integer for NaN and
    the infinities, for which [int] raises. *)
Definition py_int (f : spec_float) : option Z :=
  match f with
  | S754_zero _ => Some 0
  | S754_finite s m e =>
      let magnitude := if 0 <=? e then Z.pos m * 2 ^ e else Z.pos m / 2 ^ (- e) in
      Some (if s then - magnitude else magnitude)
  | S754_infinity _ | S754_nan => None
  end.

(** The locals [indicator_index] and [last_indicator_time]. *)
Record indicator : Type := mkIndicator {
  indicator_index : nat;
  last_indicator_time : spec_float
}.

(** The double 0.5. *)
Definition half_second : spec_float := S754_finite false 1 (-1).

(** The line written to [sys.stdout]. *)
Definition waiting_line (glyph : string) (secs : Z) : string :=
  String (Ascii.ascii_of_nat 13) ("Waiting for broadcasts " +:+ glyph +:+ " [" +:+ pretty secs +:+ "s elapsed] ").

(** "Update waiting indicator every 0.5 seconds": the last statement of the
    loop body.  The result is the line written, if any, and the locals; there
    is none when the subscript or [int] raises. *)
Definition update_indicator (current_time elapsed_time : spec_float) (w : indicator)
    : option (option string * indicator) :=
  if num_gt (PFloat (float_sub current_time (last_indicator_time w))) (PFloat half_second)
  then
    glyph ← waiting_indicator !! indicator_index w;
    secs ← py_int elapsed_time;
    Some (Some (waiting_line glyph secs),
          mkIndicator ((indicator_index w + 1) mod length waiting_indicator) current_time)
  else Some (None, w).

(** The indicator over the turns of a loop, each given by its [current_time]
    and [elapsed_time]: the lines written and the locals at the end. *)
Fixpoint run_indicator (steps : list (spec_float * spec_float)) (w : indicator)
    : option (list string * indicator) :=
  match steps with
  | [] => Some ([], w)
  | (current_time, elapsed_time) :: steps =>
      '(line, w') ← update_indicator current_time elapsed_time w;
      '(lines, w'') ← run_indicator steps w';
      Some (option_list line ++ lines, w'')
  end.

(** ** Further inputs to compute with *)

(** An invocation whose [recvfrom] fails. *)
Definition sample_socket_error : handler_env :=
  mkEnv (Raise OSError) "2025-03-01T10:00:01" (Return tt).

(** The message with id [n] and a field that the handler does not read. *)
Definition sample_extended (n : Z) : gmap string json :=
  <["sequence" := JNum (PInt 7)]> (sample_message n).

(** A message whose id is [Infinity]. *)
Definition sample_infinite : gmap string json :=
  <["message_id" := JNum infinity]> (sample_message 0).

(** A listener without bounds. *)
Definition unlimited_client : UDP_Client :=
  (__init__ "1a2b3c4d" (Some "listener") 37020 (PInt 0) (PInt 0)).1.

(** A turn in which [select] fails. *)
Definition failing_turn : iteration := mkIteration (seconds 102) (Raise OSError).

(** A run whose only turn comes 400 seconds after the start. *)
Definition late_run : run_env :=
  mkRun (mkClock (seconds 100) "2025-03-01T10:00:00")
    [sample_turn 500 []]
    (mkClock (seconds 501) "2025-03-01T10:06:41").

(** * Properties *)

(** ** The order of numbers *)

Lemma xgtb_xlt (a b : xreal) : xgtb a b = true ↔ xlt b a.
Proof.
  destruct a as [| |p|], b as [| |q|]; simpl; try (split; (done || discriminate)).
  rewrite Qgt_alt. destruct (p ?= q)%Q; split; (done || discriminate).
Qed.

Lemma xgeb_xle (a b : xreal) : xgeb a b = true ↔ xle b a.
Proof.
  destruct a as [| |p|], b as [| |q|]; simpl; try (split; (done || discriminate)).
  rewrite Qge_alt. destruct (p ?= q)%Q; split; (done || discriminate).
Qed.

Lemma xlt_irrefl (a : xreal) : ¬ xlt a a.
Proof. destruct a; simpl; auto using Qlt_irrefl. Qed.

Lemma xlt_trans (a b c : xreal) : xlt a b → xlt b c → xlt a c.
Proof. destruct a, b, c; simpl; try done. apply Qlt_trans. Qed.

Lemma xle_lt_trans (a b c : xreal) : xle a b → xlt b c → xlt a c.
Proof. destruct a, b, c; simpl; try done. apply Qle_lt_trans. Qed.

Lemma xlt_le_trans (a b c : xreal) : xlt a b → xle b c → xlt a c.
Proof. destruct a, b, c; simpl; try done. apply Qlt_le_trans. Qed.

Lemma xle_trans (a b c : xreal) : xle a b → xle b c → xle a c.
Proof. destruct a, b, c; simpl; try done. apply Qle_trans. Qed.

Lemma xlt_xle (a b : xreal) : xlt a b → xle a b.
Proof. destruct a, b; simpl; try done. apply Qlt_le_weak. Qed.

Lemma xle_not_lt (a b : xreal) : xle a b → ¬ xlt b a.
Proof. destruct a, b; simpl; try done; auto. apply Qle_not_lt. Qed.

Lemma num_gt_lt (a b : pynum) : num_gt a b = true ↔ num_lt b a.
Proof. apply xgtb_xlt. Qed.

Lemma num_ge_le (a b : pynum) : num_ge a b = true ↔ num_le b a.
Proof. apply xgeb_xle. Qed.

(** Between [int]s the order is that of the integers. *)
Lemma num_lt_int (a b : Z) : num_lt (PInt a) (PInt b) ↔ a < b.
Proof. unfold num_lt; simpl. unfold Qlt; simpl. lia. Qed.

Lemma num_le_int (a b : Z) : num_le (PInt a) (PInt b) ↔ a ≤ b.
Proof. unfold num_le; simpl. unfold Qle; simpl. lia. Qed.

Lemma num_gt_int (a b : Z) : num_gt (PInt a) (PInt b) = true ↔ b < a.
Proof. rewrite num_gt_lt. apply num_lt_int. Qed.

Lemma num_gt_irrefl (a : pynum) : num_gt a a = false.
Proof.
  destruct (num_gt a a) eqn:E; [|done].
  apply num_gt_lt, xlt_irrefl in E. done.
Qed.

Lemma num_gt_trans (a b c : pynum) :
  num_gt a b = true → num_gt b c = true → num_gt a c = true.
Proof. rewrite !num_gt_lt. intros ??. by apply xlt_trans with (num_val b). Qed.

Lemma num_gt_false_of_le (a b : pynum) : num_le a b → num_gt a b = false.
Proof.
  intros H. destruct (num_gt a b) eqn:E; [|done].
  apply num_gt_lt in E. by apply xle_not_lt in H.
Qed.

(** ** Running a method *)

Ltac run :=
  unfold handle_received_data, process, decode_message, loads, get, number,
    try_except, should_exit, cleanup, unregister_and_close, since_start,
    print, perform, attr, assign, called, raise,
    mbind, M_bind, mret, M_ret, result_of, object_of, effects_of in *;
  simpl in *.

(** ** [should_exit] *)

(** C4. The exit check returns [True] exactly when the runtime bound is set
    and exceeded or the message bound is set and reached; it leaves the
    object as it is, and with both bounds at 0 it returns [False]. *)
Theorem should_exit_iff_bound_reached (s : UDP_Client) (elapsed_time : pynum) :
  ∃ (b : bool) (out : list effect),
    should_exit elapsed_time s = (Return b, s, out)
    ∧ (b = true ↔
         (num_lt (PInt 0) (max_runtime s) ∧ num_lt (max_runtime s) elapsed_time)
         ∨ (num_lt (PInt 0) (max_messages s)
            ∧ num_le (max_messages s) (PInt (Z.of_nat (length (received_messages s))))))
    ∧ (max_runtime s = PInt 0 → max_messages s = PInt 0 → b = false).
Proof.
  run.
  destruct (num_gt (max_runtime s) (PInt 0)) eqn:Hr0;
    destruct (num_gt elapsed_time (max_runtime s)) eqn:Hr;
    destruct (num_gt (max_messages s) (PInt 0)) eqn:Hm0;
    destruct (num_ge (PInt (Z.of_nat (length (received_messages s)))) (max_messages s)) eqn:Hm;
    simpl; rewrite ?Hr0, ?Hr, ?Hm0, ?Hm; simpl;
    eexists _, _; (split; [reflexivity|]);
    rewrite <- !num_gt_lt, <- !num_ge_le, ?Hr0, ?Hr, ?Hm0, ?Hm;
    (split; [ intuition congruence | ]);
    intros E1 E2; rewrite ?E1, ?E2 in *; try done;
    rewrite num_gt_irrefl in *; done.
Qed.

(** ** [handle_received_data] *)

Lemma decode_message_object (m : gmap string json) (s : UDP_Client) :
  decode_message (Parsed (JObj m)) s
  = (Return (timestamp_of m, state_of m, message_id_of m), s, []).
Proof. reflexivity. Qed.

(** The handler on a datagram that decodes to a JSON object. *)
Lemma handle_object (s : UDP_Client) (env : handler_env) (d : datagram)
    (m : gmap string json) :
  delivers env d m →
  handle_received_data env s =
    match message_id_of m with
    | JNum n =>
        if num_gt n (last_processed_id s)
        then
          let r := record_of env d m n in
          let s' := accept r s in
          ((after_send env s').1, s',
           [RecvFrom 1024;
            Printed (NReceived (server_ip r) (server_port r) n (timestamp r) (state r));
            SendTo (response (client_id s) n) (server_ip r) (server_port r)]
           ++ (after_send env s').2)
        else (Return tt, s, [RecvFrom 1024])
    | _ => (Return tt, s, [RecvFrom 1024; Printed (NError TypeError)])
    end.
Proof.
  intros [Hrecv Hdata]. unfold handle_received_data, try_except.
  unfold mbind at 1, M_bind at 1, perform at 1.
  unfold mbind at 1, M_bind at 1, called at 1. rewrite Hrecv.
  unfold mbind at 1, M_bind at 1. rewrite Hdata, decode_message_object.
  destruct (message_id_of m) as [|n| | |] eqn:Hmid; try reflexivity.
  run. destruct (num_gt n (last_processed_id s)) eqn:Hgt; [|reflexivity].
  unfold after_send, accept, record_of. destruct s; simpl.
  destruct (sendto env) as [[]|e]; simpl.
  - case_decide; reflexivity.
  - destruct e; reflexivity.
Qed.

Lemma acks_after_send (env : handler_env) (s : UDP_Client) :
  acks (after_send env s).2 = [].
Proof.
  unfold after_send. destruct (sendto env) as [[]|e]; simpl.
  - case_decide; reflexivity.
  - destruct e; reflexivity.
Qed.

Lemma newer_dec (mid : json) (last : pynum) : newer mid last ∨ ¬ newer mid last.
Proof.
  destruct mid as [|n| | |]; try (right; intros (? & ? & ?); discriminate).
  destruct (num_gt n last) eqn:E.
  - left. by exists n.
  - right. intros (n' & [= <-] & E'). congruence.
Qed.

(** An accepted message: the ratchet moves to its id, its record is appended,
    and [sendto] is called once, with the acknowledgment, for the sender. *)
Lemma handle_newer (s : UDP_Client) (env : handler_env) (d : datagram)
    (m : gmap string json) (n : pynum) :
  delivers env d m → message_id_of m = JNum n →
  num_gt n (last_processed_id s) = true →
  object_of (handle_received_data env s) = accept (record_of env d m n) s
  ∧ acks (effects_of (handle_received_data env s))
    = [ack_of (client_id s) (record_of env d m n)]
  ∧ receives (effects_of (handle_received_data env s)) = [1024].
Proof.
  intros Hd Hmid Hgt. rewrite (handle_object s env d m Hd), Hmid, Hgt.
  unfold object_of, effects_of; simpl. split; [done|].
  unfold acks, receives. simpl.
  fold (acks (after_send env (accept (record_of env d m n) s)).2).
  rewrite acks_after_send. split; [done|].
  unfold after_send. destruct (sendto env) as [[]|e]; simpl.
  - case_decide; reflexivity.
  - destruct e; reflexivity.
Qed.

(** A message that is not newer: nothing changes, [sendto] is not called. *)
Lemma handle_not_newer (s : UDP_Client) (env : handler_env) (d : datagram)
    (m : gmap string json) :
  delivers env d m → ¬ newer (message_id_of m) (last_processed_id s) →
  result_of (handle_received_data env s) = Return tt
  ∧ object_of (handle_received_data env s) = s
  ∧ acks (effects_of (handle_received_data env s)) = []
  ∧ receives (effects_of (handle_received_data env s)) = [1024].
Proof.
  intros Hd Hnew. rewrite (handle_object s env d m Hd).
  destruct (message_id_of m) as [|n| | |]; try done.
  destruct (num_gt n (last_processed_id s)) eqn:Hgt; [|done].
  destruct Hnew. by exists n.
Qed.

(** C1. A decoded message is accepted exactly when its [message_id] is
    greater than [last_processed_id].  An accepted message moves
    [last_processed_id] to its id, appends its record and is acknowledged; a
    rejected one changes nothing and is not acknowledged.  After id 5 has
    been accepted, id 3 is dropped and id 6 is accepted. *)
Theorem accepted_iff_newer :
  (∀ (s : UDP_Client) (env : handler_env) (d : datagram) (m : gmap string json),
     delivers env d m →
     let s' := object_of (handle_received_data env s) in
     let out := effects_of (handle_received_data env s) in
     ((∃ r, received_messages s' = received_messages s ++ [r])
      ↔ newer (message_id_of m) (last_processed_id s))
     ∧ (∀ n, message_id_of m = JNum n → num_gt n (last_processed_id s) = true →
          last_processed_id s' = n
          ∧ received_messages s' = received_messages s ++ [record_of env d m n]
          ∧ acks out = [ack_of (client_id s) (record_of env d m n)])
     ∧ (¬ newer (message_id_of m) (last_processed_id s) →
          last_processed_id s' = last_processed_id s
          ∧ received_messages s' = received_messages s
          ∧ acks out = []))
  ∧ (∀ (s : UDP_Client) (e5 e3 e6 : handler_env) (d5 d3 d6 : datagram)
       (m5 m3 m6 : gmap string json),
       delivers e5 d5 m5 → message_id_of m5 = JNum (PInt 5) →
       delivers e3 d3 m3 → message_id_of m3 = JNum (PInt 3) →
       delivers e6 d6 m6 → message_id_of m6 = JNum (PInt 6) →
       num_lt (last_processed_id s) (PInt 5) →
       let s5 := object_of (handle_received_data e5 s) in
       last_processed_id s5 = PInt 5
       ∧ (object_of (handle_received_data e3 s5) = s5
          ∧ acks (effects_of (handle_received_data e3 s5)) = [])
       ∧ (last_processed_id (object_of (handle_received_data e6 s5)) = PInt 6
          ∧ received_messages (object_of (handle_received_data e6 s5))
            = received_messages s5 ++ [record_of e6 d6 m6 (PInt 6)]
          ∧ acks (effects_of (handle_received_data e6 s5))
            = [ack_of (client_id s5) (record_of e6 d6 m6 (PInt 6))])).
Proof.
  split.
  - intros s env d m Hd s' out. subst s' out.
    assert (Hyes : ∀ n, message_id_of m = JNum n →
              num_gt n (last_processed_id s) = true →
              last_processed_id (object_of (handle_received_data env s)) = n
              ∧ received_messages (object_of (handle_received_data env s))
                = received_messages s ++ [record_of env d m n]
              ∧ acks (effects_of (handle_received_data env s))
                = [ack_of (client_id s) (record_of env d m n)]).
    { intros n Hmid Hgt.
      destruct (handle_newer s env d m n Hd Hmid Hgt) as (-> & -> & _). done. }
    assert (Hno : ¬ newer (message_id_of m) (last_processed_id s) →
              last_processed_id (object_of (handle_received_data env s))
              = last_processed_id s
              ∧ received_messages (object_of (handle_received_data env s))
                = received_messages s
              ∧ acks (effects_of (handle_received_data env s)) = []).
    { intros Hnew.
      destruct (handle_not_newer s env d m Hd Hnew) as (_ & -> & -> & _). done. }
    split; [|split; assumption].
    split.
    + intros [r Hr]. destruct (newer_dec (message_id_of m) (last_processed_id s))
        as [|Hnew]; [done|].
      destruct (Hno Hnew) as (_ & Heq & _). rewrite Heq in Hr.
      apply (f_equal length) in Hr. rewrite length_app in Hr. simpl in Hr. lia.
    + intros (n & Hmid & Hgt). destruct (Hyes n Hmid Hgt) as (_ & -> & _). eauto.
  - intros s e5 e3 e6 d5 d3 d6 m5 m3 m6 H5 I5 H3 I3 H6 I6 Hlt s5. subst s5.
    apply num_gt_lt in Hlt.
    destruct (handle_newer s e5 d5 m5 _ H5 I5 Hlt) as (-> & _).
    split; [done|]. split.
    + assert (Hnew : ¬ newer (message_id_of m3)
                (last_processed_id (accept (record_of e5 d5 m5 (PInt 5)) s))).
      { rewrite I3. intros (n & [= <-] & Hgt). simpl in Hgt.
        apply num_gt_int in Hgt. lia. }
      destruct (handle_not_newer _ e3 d3 m3 H3 Hnew) as (_ & -> & -> & _). done.
    + assert (Hgt : num_gt (PInt 6)
                (last_processed_id (accept (record_of e5 d5 m5 (PInt 5)) s)) = true).
      { simpl. apply num_gt_int. lia. }
      destruct (handle_newer _ e6 d6 m6 _ H6 I6 Hgt) as (-> & -> & _). done.
Qed.

(** C6. An accepted message is answered by one [sendto], with the payload
    ["Client {client_id} received message {message_id}"] and the address of
    the sender.  Whatever [sendto] does, [last_processed_id] and the appended
    record stay; a failure of [sendto] is printed and the handler returns. *)
Theorem ack_sent_once_best_effort (s : UDP_Client) (env : handler_env)
    (d : datagram) (m : gmap string json) (n : pynum) :
  delivers env d m → message_id_of m = JNum n →
  num_gt n (last_processed_id s) = true →
  let call := handle_received_data env s in
  acks (effects_of call)
  = [("Client " +:+ client_id s +:+ " received message " +:+ py_str n,
      (addr d).1, (addr d).2)]
  ∧ last_processed_id (object_of call) = n
  ∧ received_messages (object_of call)
    = received_messages s ++ [record_of env d m n]
  ∧ (∀ e, sendto env = Raise e → is_Exception e = true →
       result_of call = Return tt ∧ ∃ x, error_notices (effects_of call) = [x]).
Proof.
  intros Hd Hmid Hgt call. subst call.
  destruct (handle_newer s env d m n Hd Hmid Hgt) as (Hobj & Hacks & _).
  rewrite Hobj, Hacks. split; [done|]. split; [done|]. split; [done|].
  intros e He Hexc. rewrite (handle_object s env d m Hd), Hmid, Hgt.
  unfold result_of, effects_of, after_send; simpl. rewrite He.
  destruct e; try discriminate; simpl; eauto.
Qed.

(** C7. A JSON object decodes whatever fields it has: a missing [timestamp]
    or [state] reads as ["unknown"], a missing [message_id] as [-1], and the
    handler prints no error for it.  Decoding raises only for a payload that
    is not a JSON object.  The handler works with these values: a message
    without [message_id] is compared as [-1], and the record of an accepted
    message holds ["unknown"] for the [timestamp] or [state] it lacks; it
    handles an object as it handles the object with the defaults written in.
    An error is printed for a JSON object only when its [message_id] is there
    and is not a number, for which the comparison raises [TypeError], or when
    [sendto] fails; never for a field that is missing. *)
Theorem missing_fields_default :
  (∀ (m : gmap string json) (s : UDP_Client),
     ∃ ts st mid,
       decode_message (Parsed (JObj m)) s = (Return (ts, st, mid), s, [])
       ∧ (m !! "timestamp" = None → ts = JStr "unknown")
       ∧ (m !! "state" = None → st = JStr "unknown")
       ∧ (m !! "message_id" = None → mid = JNum (PInt (-1)))
       ∧ (∀ v, m !! "timestamp" = Some v → ts = v)
       ∧ (∀ v, m !! "state" = Some v → st = v)
       ∧ (∀ v, m !! "message_id" = Some v → mid = v))
  ∧ (∀ (p : payload) (s : UDP_Client),
       (∃ e, result_of (decode_message p s) = Raise e)
       ↔ (∀ m, p ≠ Parsed (JObj m)))
  ∧ (∀ (s : UDP_Client) (env : handler_env) (d : datagram) (m : gmap string json),
       delivers env d m →
       m !! "message_id" = None ∨ (∃ n, m !! "message_id" = Some (JNum n)) →
       sendto env = Return tt →
       result_of (handle_received_data env s) = Return tt
       ∧ error_notices (effects_of (handle_received_data env s)) = [])
  ∧ (∀ (s : UDP_Client) (env : handler_env) (d : datagram) (m : gmap string json),
       delivers env d m →
       let s' := object_of (handle_received_data env s) in
       (m !! "message_id" = None →
          ((∃ r, received_messages s' = received_messages s ++ [r])
           ↔ num_gt (PInt (-1)) (last_processed_id s) = true))
       ∧ (∀ r, received_messages s' = received_messages s ++ [r] →
            (m !! "timestamp" = None → timestamp r = JStr "unknown")
            ∧ (m !! "state" = None → state r = JStr "unknown")
            ∧ (m !! "message_id" = None → message_id r = PInt (-1))
            ∧ (∀ v, m !! "timestamp" = Some v → timestamp r = v)
            ∧ (∀ v, m !! "state" = Some v → state r = v)
            ∧ (∀ v, m !! "message_id" = Some v → v = JNum (message_id r))))
  ∧ (∀ (s : UDP_Client) (env : handler_env) (d : datagram) (m : gmap string json),
       delivers env d m →
       (error_notices (effects_of (handle_received_data env s)) ≠ [] →
          (∃ v, m !! "message_id" = Some v ∧ ∀ n, v ≠ JNum n)
          ∨ (∃ e, sendto env = Raise e))
       ∧ (∀ v, m !! "message_id" = Some v → (∀ n, v ≠ JNum n) →
            handle_received_data env s
            = (Return tt, s, [RecvFrom 1024; Printed (NError TypeError)])))
  ∧ (∀ (s : UDP_Client) (m : gmap string json) (a : string * Z) (now : string)
       (send : outcome unit),
       handle_received_data (receiving m a now send) s
       = handle_received_data (receiving (with_defaults m) a now send) s).
Proof.
  split; [|split; [|split; [|split; [|split]]]].
  - intros m s. eexists _, _, _. split; [apply decode_message_object|].
    unfold timestamp_of, state_of, message_id_of, field.
    repeat split; intros; simplify_option_eq; done.
  - intros p s. split.
    + intros [e He] m ->. discriminate.
    + intros Hp. destruct p as [|e|[|n|x|l|m]]; try (by eexists).
      by destruct (Hp m).
  - intros s env d m Hd Hid Hsend.
    rewrite (handle_object s env d m Hd).
    assert (∃ n, message_id_of m = JNum n) as [n ->].
    { unfold message_id_of, field. destruct Hid as [->|[n ->]]; simpl; eauto. }
    destruct (num_gt n (last_processed_id s)); [|done].
    unfold after_send, result_of, effects_of. rewrite Hsend. simpl.
    case_decide; done.
  - intros s env d m Hd s'. subst s'.
    assert (Hrec : ∀ r,
              received_messages (object_of (handle_received_data env s))
              = received_messages s ++ [r] →
              ∃ n, message_id_of m = JNum n
                   ∧ num_gt n (last_processed_id s) = true
                   ∧ r = record_of env d m n).
    { intros r Hr. rewrite (handle_object s env d m Hd) in Hr.
      assert (Hsame : received_messages s ≠ received_messages s ++ [r]).
      { intros Heq. apply (f_equal length) in Heq.
        rewrite length_app in Heq. simpl in Heq. lia. }
      destruct (message_id_of m) as [|n| | |]; try done.
      destruct (num_gt n (last_processed_id s)) eqn:Hgt; [|done].
      unfold object_of in Hr; simpl in Hr.
      apply app_inj_tail in Hr as [_ <-]. by exists n. }
    split.
    + intros Hnone.
      assert (Hmid : message_id_of m = JNum (PInt (-1))).
      { unfold message_id_of, field. by rewrite Hnone. }
      split.
      * intros [r Hr]. destruct (Hrec r Hr) as (n & Hn & Hgt & _).
        rewrite Hmid in Hn. by simplify_eq.
      * intros Hgt.
        destruct (handle_newer s env d m (PInt (-1)) Hd Hmid Hgt) as (-> & _).
        by eexists.
    + intros r Hr. destruct (Hrec r Hr) as (n & Hn & _ & ->).
      unfold record_of, timestamp_of, state_of, message_id_of, field in *. simpl.
      repeat split.
      * by intros ->.
      * by intros ->.
      * intros Hnone. rewrite Hnone in Hn. simpl in Hn. by simplify_eq.
      * by intros v ->.
      * by intros v ->.
      * intros v Hv. rewrite Hv in Hn. by simpl in Hn.
  - intros s env d m Hd. rewrite (handle_object s env d m Hd). split.
    + intros Herr. unfold message_id_of, field in Herr.
      destruct (m !! "message_id") as [v|] eqn:Hv; simpl in Herr.
      * destruct v as [|n| | |];
          try (left; eexists; split; [reflexivity|]; intros n'; discriminate).
        right. destruct (num_gt n (last_processed_id s)); [|done].
        destruct (sendto env) as [[]|e] eqn:Hsend; [|by eauto].
        unfold effects_of, after_send in Herr. rewrite Hsend in Herr.
        simpl in Herr. by case_decide.
      * right. destruct (num_gt (PInt (-1)) (last_processed_id s)); [|done].
        destruct (sendto env) as [[]|e] eqn:Hsend; [|by eauto].
        unfold effects_of, after_send in Herr. rewrite Hsend in Herr.
        simpl in Herr. by case_decide.
    + intros v Hv Hnum. unfold message_id_of, field. rewrite Hv. simpl.
      destruct v as [|n| | |]; try done. by destruct (Hnum n).
  - intros s m a now send.
    rewrite (handle_object s _ (mkDatagram (Parsed (JObj m)) a) m) by done.
    rewrite (handle_object s _ (mkDatagram (Parsed (JObj (with_defaults m))) a)
               (with_defaults m)) by done.
    assert (Hts : timestamp_of (with_defaults m) = timestamp_of m).
    { unfold with_defaults, timestamp_of at 1, field. by simplify_map_eq. }
    assert (Hst : state_of (with_defaults m) = state_of m).
    { unfold with_defaults, state_of at 1, field. by simplify_map_eq. }
    assert (Hmid : message_id_of (with_defaults m) = message_id_of m).
    { unfold with_defaults, message_id_of at 1, field. by simplify_map_eq. }
    unfold record_of. rewrite Hts, Hst, Hmid. reflexivity.
Qed.

(** The handler on a payload that does not conform: one error is printed,
    nothing else happens. *)
Lemma handle_nonconforming (s : UDP_Client) (env : handler_env) (d : datagram) :
  recvfrom env = Return d → nonconforming (data d) →
  ∃ x, handle_received_data env s = (Return tt, s, [RecvFrom 1024; Printed x])
       ∧ (x = NInvalidJson ∨ ∃ e, x = NError e).
Proof.
  intros Hrecv Hbad. destruct (data d) as [|e|v] eqn:Hdata.
  - exists (NError UnicodeDecodeError). run. rewrite Hrecv; simpl. rewrite Hdata; simpl. eauto.
  - inversion Hbad as [|e' He| |]; subst.
    destruct e; try discriminate;
      (eexists; run; rewrite Hrecv; simpl; rewrite Hdata; simpl; eauto).
  - inversion Hbad as [| |v' Hv|m Hm]; subst.
    + exists (NError AttributeError).
      destruct v as [|n|x|l|m]; try (run; rewrite Hrecv; simpl; rewrite Hdata; simpl; by eauto).
      by destruct (Hv m).
    + exists (NError TypeError). rewrite (handle_object s env d m); [|done].
      destruct (message_id_of m) as [|n| | |] eqn:E; eauto. by destruct (Hm n).
Qed.

(** ** Sequences of invocations *)

Lemma accept_all_snoc (rs : list ReceivedRecord) (r : ReceivedRecord) (s : UDP_Client) :
  accept_all (rs ++ [r]) s = accept r (accept_all rs s).
Proof. unfold accept_all. by rewrite foldl_app. Qed.

Lemma accept_all_app (rs1 rs2 : list ReceivedRecord) (s : UDP_Client) :
  accept_all (rs1 ++ rs2) s = accept_all rs2 (accept_all rs1 s).
Proof. unfold accept_all. by rewrite foldl_app. Qed.

Lemma frame_accept_all (rs : list ReceivedRecord) (s : UDP_Client) :
  frame (accept_all rs s) = frame s.
Proof. revert s. induction rs as [|r rs IH]; intros s; [done|]. simpl. by rewrite IH. Qed.

Lemma received_accept_all (rs : list ReceivedRecord) (s : UDP_Client) :
  received_messages (accept_all rs s) = received_messages s ++ rs.
Proof.
  revert s. induction rs as [|r rs IH]; intros s; simpl.
  - by rewrite app_nil_r.
  - rewrite IH. simpl. by rewrite <- app_assoc.
Qed.

Lemma client_id_accept_all (rs : list ReceivedRecord) (s : UDP_Client) :
  client_id (accept_all rs s) = client_id s.
Proof. by injection (frame_accept_all rs s). Qed.

Lemma last_accept_all (rs : list ReceivedRecord) (s : UDP_Client) :
  last_processed_id (accept_all rs s) = last_id (last_processed_id s) rs.
Proof. revert s. induction rs as [|r rs IH]; intros s; [done|]. simpl. by rewrite IH. Qed.

Lemma chain_app (last : pynum) (rs1 rs2 : list ReceivedRecord) :
  chain last (rs1 ++ rs2) ↔ chain last rs1 ∧ chain (last_id last rs1) rs2.
Proof.
  revert last. induction rs1 as [|r rs1 IH]; intros last; simpl; [tauto|].
  rewrite IH. tauto.
Qed.

(** Along a chain the ids stay above where it started. *)
Lemma chain_last_id (last : pynum) (rs : list ReceivedRecord) :
  chain last rs → last_id last rs = last ∨ num_gt (last_id last rs) last = true.
Proof.
  revert last. induction rs as [|r rs IH]; intros last; simpl; [auto|].
  intros [Hgt Hrs]. right. destruct (IH _ Hrs) as [->|H]; [done|].
  by apply num_gt_trans with (message_id r).
Qed.

Lemma chain_max_id (last : pynum) (rs : list ReceivedRecord) :
  chain last rs → max_id last rs = last_id last rs.
Proof.
  revert last. induction rs as [|r rs IH]; intros last; simpl; [done|].
  intros [Hgt Hrs]. rewrite Hgt. by apply IH.
Qed.

Lemma chain_above (last : pynum) (rs : list ReceivedRecord) :
  chain last rs → Forall (λ r, num_gt (message_id r) last = true) rs.
Proof.
  revert last. induction rs as [|r rs IH]; intros last; simpl; [constructor|].
  intros [Hgt Hrs]. constructor; [done|].
  eapply Forall_impl; [by apply IH|]. simpl. intros r' H.
  by apply num_gt_trans with (message_id r).
Qed.

Lemma receives_after_send (env : handler_env) (s : UDP_Client) :
  receives (after_send env s).2 = [].
Proof.
  unfold after_send. destruct (sendto env) as [[]|e]; simpl.
  - case_decide; reflexivity.
  - destruct e; reflexivity.
Qed.

Lemma result_after_send (env : handler_env) (s : UDP_Client) :
  (after_send env s).1 = Return tt ∨ (after_send env s).1 = Raise KeyboardInterrupt.
Proof.
  unfold after_send. destruct (sendto env) as [[]|e]; simpl; [auto|].
  destruct e; auto.
Qed.

(** One invocation accepts at most one record, calls [recvfrom] once, and
    lets no exception but [KeyboardInterrupt] out. *)
Lemma handle_step (s : UDP_Client) (env : handler_env) :
  ∃ rs, (length rs ≤ 1)%nat
    ∧ chain (last_processed_id s) rs
    ∧ object_of (handle_received_data env s) = accept_all rs s
    ∧ acks (effects_of (handle_received_data env s)) = ack_of (client_id s) <$> rs
    ∧ receives (effects_of (handle_received_data env s)) = [1024]
    ∧ (result_of (handle_received_data env s) = Return tt
       ∨ result_of (handle_received_data env s) = Raise KeyboardInterrupt).
Proof.
  destruct (recvfrom env) as [d|e] eqn:Hrecv.
  - destruct (data d) as [|e|v] eqn:Hdata.
    + exists []. run. rewrite Hrecv; simpl. rewrite Hdata; simpl. auto 10.
    + exists []. run. rewrite Hrecv; simpl. rewrite Hdata; simpl.
      destruct e; simpl; auto 10.
    + destruct v as [|n|x|l|m];
        try (exists []; run; rewrite Hrecv; simpl; rewrite Hdata; simpl; by auto 10).
      rewrite (handle_object s env d m); [|done].
      destruct (message_id_of m) as [|n| | |]; try (exists []; simpl; by auto 10).
      destruct (num_gt n (last_processed_id s)) eqn:Hgt; [|exists []; simpl; by auto 10].
      exists [record_of env d m n]. unfold object_of, effects_of, result_of; simpl.
      split; [lia|]. split; [done|]. split; [done|].
      unfold acks, receives; simpl.
      fold (acks (after_send env (accept (record_of env d m n) s)).2).
      fold (receives (after_send env (accept (record_of env d m n) s)).2).
      rewrite acks_after_send, receives_after_send.
      split; [done|]. split; [done|]. apply result_after_send.
  - exists []. run. rewrite Hrecv; simpl. destruct e; simpl; auto 10.
Qed.

Lemma acks_app (o1 o2 : list effect) : acks (o1 ++ o2) = acks o1 ++ acks o2.
Proof. apply omap_app. Qed.

Lemma receives_app (o1 o2 : list effect) : receives (o1 ++ o2) = receives o1 ++ receives o2.
Proof. apply omap_app. Qed.

Lemma dispatch_cons (ev : handler_env) (evs : list handler_env) (s : UDP_Client) :
  dispatch (ev :: evs) s =
    match handle_received_data ev s with
    | (Return _, s1, o1) =>
        match dispatch evs s1 with
        | (r, s2, o2) => (r, s2, o1 ++ o2)
        end
    | (Raise e, s1, o1) => (Raise e, s1, o1)
    end.
Proof. reflexivity. Qed.

Lemma dispatch_app (evs1 evs2 : list handler_env) (s : UDP_Client) :
  dispatch (evs1 ++ evs2) s =
    match dispatch evs1 s with
    | (Return _, s1, o1) =>
        match dispatch evs2 s1 with
        | (r, s2, o2) => (r, s2, o1 ++ o2)
        end
    | (Raise e, s1, o1) => (Raise e, s1, o1)
    end.
Proof.
  revert s. induction evs1 as [|ev evs1 IH]; intros s.
  - simpl. unfold mret, M_ret. by destruct (dispatch evs2 s) as [[r s2] o2].
  - rewrite <- app_comm_cons, !dispatch_cons.
    destruct (handle_received_data ev s) as [[[[]|e] s1] o1]; [|done].
    rewrite IH. destruct (dispatch evs1 s1) as [[[[]|e] s2] o2]; [|done].
    destruct (dispatch evs2 s2) as [[r s3] o3]. by rewrite app_assoc.
Qed.

(** A sequence of invocations accepts a chain of records and acknowledges
    each of them once, in order. *)
Lemma dispatch_steps (evs : list handler_env) (s : UDP_Client) :
  ∃ rs, (length rs ≤ length evs)%nat
    ∧ chain (last_processed_id s) rs
    ∧ object_of (dispatch evs s) = accept_all rs s
    ∧ acks (effects_of (dispatch evs s)) = ack_of (client_id s) <$> rs
    ∧ (result_of (dispatch evs s) = Return tt
       ∨ result_of (dispatch evs s) = Raise KeyboardInterrupt).
Proof.
  revert s. induction evs as [|ev evs IH]; intros s.
  - exists []. simpl. auto 10.
  - rewrite dispatch_cons.
    destruct (handle_step s ev) as (rs1 & Hlen1 & Hch1 & Hobj1 & Hack1 & _ & Hres1).
    destruct (handle_received_data ev s) as [[r1 s1] o1].
    unfold object_of, effects_of, result_of in *; simpl in *. subst s1.
    destruct r1 as [[]|e].
    + destruct (IH (accept_all rs1 s)) as (rs2 & Hlen2 & Hch2 & Hobj2 & Hack2 & Hres2).
      destruct (dispatch evs (accept_all rs1 s)) as [[r2 s2] o2]. simpl in *.
      exists (rs1 ++ rs2).
      rewrite length_app, chain_app, accept_all_app, acks_app, fmap_app.
      rewrite last_accept_all in Hch2. rewrite client_id_accept_all in Hack2.
      rewrite Hack1, Hack2. split; [lia|]. auto.
    + exists rs1. simpl. split; [lia|]. destruct Hres1 as [|?]; [done|]. auto.
Qed.

(** ** The event loop *)

Lemma should_exit_result (elapsed_time : pynum) (s : UDP_Client) :
  ∃ out, should_exit elapsed_time s = (Return (bound_reached elapsed_time s), s, out)
    ∧ acks out = [] ∧ receives out = []
    ∧ (bound_reached elapsed_time s = false → out = []).
Proof.
  unfold bound_reached. run.
  destruct (num_gt (max_runtime s) (PInt 0) && num_gt elapsed_time (max_runtime s));
    simpl; [eexists; by repeat split|].
  destruct (num_gt (max_messages s) (PInt 0)
            && num_ge (PInt (Z.of_nat (length (received_messages s)))) (max_messages s));
    simpl; eexists; by repeat split.
Qed.

Lemma event_loop_cons (turn : iteration) (rest : list iteration) (s : UDP_Client) :
  event_loop (turn :: rest) s =
    match start_time s with
    | None => (Raise TypeError, s, [])
    | Some t0 =>
        match should_exit (PFloat (float_sub (current_time turn) t0)) s with
        | (Return true, s1, o1) => (Return Broke, s1, o1)
        | (Return false, s1, o1) =>
            match select turn with
            | Return events =>
                match dispatch events s1 with
                | (Return _, s2, o2) =>
                    match event_loop rest s2 with
                    | (r, s3, o3) => (r, s3, o1 ++ o2 ++ o3)
                    end
                | (Raise e, s2, o2) => (Raise e, s2, o1 ++ o2)
                end
            | Raise e => (Raise e, s1, o1)
            end
        | (Raise e, s1, o1) => (Raise e, s1, o1)
        end
    end.
Proof.
  simpl. unfold since_start, mbind, M_bind, attr, mret, M_ret, raise, called.
  destruct (start_time s) as [t0|]; [|done]. simpl.
  destruct (should_exit _ s) as [[[[]|e] s1] o1]; simpl; rewrite ?app_nil_r; try done.
  destruct (select turn) as [events|e]; simpl; rewrite ?app_nil_r; [|done].
  destruct (dispatch events s1) as [[[[]|e] s2] o2]; simpl; [|done].
  by destruct (event_loop rest s2) as [[r s3] o3].
Qed.

Lemma start_time_accept_all (rs : list ReceivedRecord) (s : UDP_Client) :
  start_time (accept_all rs s) = start_time s.
Proof. by injection (frame_accept_all rs s). Qed.

(** The loop accepts a chain of records, acknowledges each once, and lets
    out only what [select] raises, a [KeyboardInterrupt], or the [TypeError]
    of a clock that was never started. *)
Lemma event_loop_steps (turns : list iteration) (s : UDP_Client) :
  ∃ rs, chain (last_processed_id s) rs
    ∧ object_of (event_loop turns s) = accept_all rs s
    ∧ acks (effects_of (event_loop turns s)) = ack_of (client_id s) <$> rs.
Proof.
  revert s. induction turns as [|turn rest IH]; intros s.
  - by exists [].
  - rewrite event_loop_cons. destruct (start_time s) as [t0|]; [|by exists []].
    destruct (should_exit_result (PFloat (float_sub (current_time turn) t0)) s)
      as (o1 & -> & Ha1 & _).
    destruct (bound_reached _ s); [by exists []|].
    destruct (select turn) as [events|e]; [|by exists []].
    destruct (dispatch_steps events s) as (rs1 & _ & Hch1 & Hobj1 & Hack1 & _).
    destruct (dispatch events s) as [[[[]|e] s2] o2];
      unfold object_of, effects_of in *; simpl in *; subst s2.
    + destruct (IH (accept_all rs1 s)) as (rs2 & Hch2 & Hobj2 & Hack2).
      destruct (event_loop rest (accept_all rs1 s)) as [[r s3] o3]. simpl in *.
      exists (rs1 ++ rs2).
      rewrite chain_app, accept_all_app, !acks_app, fmap_app, Ha1, Hack1, Hack2.
      rewrite last_accept_all in Hch2. rewrite client_id_accept_all. auto.
    + exists rs1. rewrite acks_app, Ha1, Hack1. auto.
Qed.

Lemma event_loop_app (turns1 turns2 : list iteration) (s : UDP_Client) :
  event_loop (turns1 ++ turns2) s =
    match event_loop turns1 s with
    | (Return Turning, s1, o1) =>
        match event_loop turns2 s1 with
        | (r, s2, o2) => (r, s2, o1 ++ o2)
        end
    | other => other
    end.
Proof.
  revert s. induction turns1 as [|turn rest IH]; intros s.
  - simpl. unfold mret, M_ret. by destruct (event_loop turns2 s) as [[r s2] o2].
  - rewrite <- app_comm_cons, !event_loop_cons.
    destruct (start_time s) as [t0|]; [|done].
    destruct (should_exit _ s) as [[[[]|e] s1] o1]; try done.
    destruct (select turn) as [events|e]; [|done].
    destruct (dispatch events s1) as [[[[]|e] s2] o2]; [|done].
    rewrite IH. destruct (event_loop rest s2) as [[[[]|e] s3] o3]; try done.
    destruct (event_loop turns2 s3) as [[r s4] o4]. by rewrite !app_assoc.
Qed.

(** ** [cleanup] and [run_client] *)

Lemma cleanup_result (now : clock) (c : UDP_Client) (t0 : spec_float) :
  start_time c = Some t0 → registered c = true →
  cleanup now c
  = (Return (execution_stats (cleaned now (float_sub (time_time now) t0) c)),
     cleaned now (float_sub (time_time now) t0) c,
     summary (float_sub (time_time now) t0) c).
Proof.
  intros Ht0 Hreg. unfold cleanup, since_start, unregister_and_close.
  unfold mbind, M_bind, attr, assign, print, perform, mret, M_ret. simpl.
  rewrite Ht0. simpl. rewrite Hreg. reflexivity.
Qed.

Lemma frame_begin_loop (env : run_env) (c : UDP_Client) (rs : list ReceivedRecord) :
  start_time (accept_all rs (begin env c)) = Some (time_time (started env))
  ∧ registered (accept_all rs (begin env c)) = registered c
  ∧ max_runtime (accept_all rs (begin env c)) = max_runtime c
  ∧ max_messages (accept_all rs (begin env c)) = max_messages c
  ∧ client_id (accept_all rs (begin env c)) = client_id c
  ∧ execution_stats (accept_all rs (begin env c))
    = <["start_time" := StatStr (isoformat (started env))]> (execution_stats c).
Proof.
  pose proof (frame_accept_all rs (begin env c)) as H.
  unfold frame in H. simpl in H. by simplify_eq.
Qed.

(** [run_client], by the way its loop ends. *)
Lemma run_client_result (env : run_env) (c : UDP_Client) :
  registered c = true →
  run_client env c =
    match event_loop (turns env) (begin env c) with
    | (Return Turning, c1, o1) => RUNNING c1 o1
    | (Return Broke, c1, o1) =>
        STOPPED (Return tt) (cleaned (stopped env) (runtime_seconds env) c1)
          (o1 ++ summary (runtime_seconds env) c1)
    | (Raise KeyboardInterrupt, c1, o1) =>
        STOPPED (Return tt) (cleaned (stopped env) (runtime_seconds env) c1)
          (o1 ++ Printed NInterrupt :: summary (runtime_seconds env) c1)
    | (Raise e, c1, o1) =>
        STOPPED (Raise e) (cleaned (stopped env) (runtime_seconds env) c1)
          (o1 ++ summary (runtime_seconds env) c1)
    end.
Proof.
  intros Hreg. unfold run_client.
  unfold mbind at 1 2, M_bind at 1 2, assign at 1 2. fold (begin env c).
  destruct (event_loop_steps (turns env) (begin env c)) as (rs & _ & Hobj & _).
  destruct (event_loop (turns env) (begin env c)) as [[r c1] o1].
  unfold object_of in Hobj; simpl in Hobj. subst c1. simpl.
  destruct (frame_begin_loop env c rs) as (Ht0 & Hreg' & _).
  rewrite Hreg in Hreg'.
  assert (Hclean : ∀ c2, c2 = accept_all rs (begin env c) →
            cleanup (stopped env) c2
            = (Return (execution_stats (cleaned (stopped env) (runtime_seconds env) c2)),
               cleaned (stopped env) (runtime_seconds env) c2,
               summary (runtime_seconds env) c2)).
  { intros c2 ->. by apply cleanup_result. }
  destruct r as [[]|e]; simpl.
  - by rewrite (Hclean _ eq_refl).
  - done.
  - destruct e; simpl; unfold print, perform; simpl; by rewrite (Hclean _ eq_refl).
Qed.

Lemma cleanup_session (now : clock) (s : UDP_Client) :
  received_messages (object_of (cleanup now s)) = received_messages s
  ∧ last_processed_id (object_of (cleanup now s)) = last_processed_id s.
Proof.
  unfold cleanup, since_start, unregister_and_close.
  unfold mbind, M_bind, attr, assign, print, perform, mret, M_ret, raise, object_of.
  simpl. destruct (start_time s); simpl; [|done].
  destruct (registered s); simpl; [done|]. by destruct (client_socket_open s).
Qed.

Lemma run_client_running (env : run_env) (c c1 : UDP_Client) (o1 : list effect) :
  run_client env c = RUNNING c1 o1
  ↔ event_loop (turns env) (begin env c) = (Return Turning, c1, o1).
Proof.
  unfold run_client. unfold mbind at 1 2, M_bind at 1 2, assign at 1 2.
  fold (begin env c).
  destruct (event_loop (turns env) (begin env c)) as [[[[]|e] c2] o2]; simpl.
  - destruct (cleanup (stopped env) c2) as [[[?|?] ?] ?]; split; intros; discriminate.
  - split; intros; by simplify_eq.
  - destruct e; simpl;
      match goal with
      | |- context [cleanup ?n ?x] => destruct (cleanup n x) as [[[?|?] ?] ?]
      end; split; intros; discriminate.
Qed.

(** Whatever [run_client] does, the records it leaves are those it found
    followed by a chain of accepted ones. *)
Lemma run_client_session (env : run_env) (s : UDP_Client) :
  ∃ rs, chain (last_processed_id s) rs
    ∧ received_messages (client_of (run_client env s)) = received_messages s ++ rs
    ∧ last_processed_id (client_of (run_client env s))
      = last_id (last_processed_id s) rs.
Proof.
  destruct (event_loop_steps (turns env) (begin env s)) as (rs & Hch & Hobj & _).
  exists rs. split; [done|].
  assert (Hsess : received_messages (accept_all rs (begin env s))
                  = received_messages s ++ rs
                  ∧ last_processed_id (accept_all rs (begin env s))
                    = last_id (last_processed_id s) rs).
  { by rewrite received_accept_all, last_accept_all. }
  remember (run_client env s) as x eqn:Hx.
  unfold run_client in Hx. unfold mbind at 1 2, M_bind at 1 2, assign at 1 2 in Hx.
  fold (begin env s) in Hx.
  destruct (event_loop (turns env) (begin env s)) as [[r c1] o1].
  unfold object_of in Hobj; simpl in Hobj. subst c1.
  destruct r as [[]|e]; simpl in Hx; [|by subst x|destruct e; simpl in Hx];
    match type of Hx with
    | context [cleanup ?n ?c] =>
        destruct (cleanup_session n c) as [H3 H4];
        destruct (cleanup n c) as [[[?|?] c3] o3]
    end; subst x; unfold object_of in *; simpl in *; by rewrite H3, H4.
Qed.

(** ** The ratchet *)

Lemma last_id_snoc (last : pynum) (rs : list ReceivedRecord) (r : ReceivedRecord) :
  last_id last (rs ++ [r]) = message_id r.
Proof. unfold last_id. by rewrite foldl_app. Qed.

(** No record has an id above that of the last one. *)
Lemma increasing_below_last (last : pynum) (rs : list ReceivedRecord)
    (i : nat) (a : ReceivedRecord) :
  increasing rs → rs !! i = Some a →
  message_id a = last_id last rs ∨ num_gt (last_id last rs) (message_id a) = true.
Proof.
  intros Hinc Ha. destruct rs as [|r rs _] using rev_ind; [done|].
  rewrite last_id_snoc.
  destruct (decide (i < length rs)%nat) as [Hi|Hi].
  - right. apply (Hinc i (length rs) a r Hi Ha).
    rewrite lookup_app_r by lia. by rewrite Nat.sub_diag.
  - left. apply lookup_lt_Some in Ha as Hlt. rewrite length_app in Hlt. simpl in Hlt.
    assert (i = length rs) as -> by lia.
    rewrite lookup_app_r in Ha by lia. rewrite Nat.sub_diag in Ha. simpl in Ha. by simplify_eq.
Qed.

Lemma ratchet_inv_accept (r : ReceivedRecord) (s : UDP_Client) :
  ratchet_inv s → num_gt (message_id r) (last_processed_id s) = true →
  ratchet_inv (accept r s).
Proof.
  intros [Hinc Hlast] Hgt. split; simpl; [|by rewrite last_id_snoc].
  intros i j a b Hij Ha Hb.
  apply lookup_lt_Some in Hb as Hj. rewrite length_app in Hj. simpl in Hj.
  assert (Hi : (i < length (received_messages s))%nat) by lia.
  rewrite lookup_app_l in Ha by done.
  destruct (decide (j < length (received_messages s))%nat) as [Hj'|Hj'].
  - rewrite lookup_app_l in Hb by done. by apply (Hinc i j).
  - assert (j = length (received_messages s)) as -> by lia.
    rewrite lookup_app_r in Hb by lia. rewrite Nat.sub_diag in Hb. simpl in Hb. simplify_eq.
    destruct (increasing_below_last (PInt (-1)) _ i a Hinc Ha) as [->|Hbelow].
    + by rewrite <- Hlast.
    + apply num_gt_trans with (last_processed_id s); [done|]. by rewrite Hlast.
Qed.

(** C9. The initial session has no record and [last_processed_id = -1]; every
    invocation of the handler keeps the ids of [received_messages] strictly
    increasing and [last_processed_id] equal to the id of the last record. *)
Theorem ratchet_invariant :
  (∀ (uuid8 : string) (cid : option string) (port : Z) (mr mm : pynum),
     ratchet_inv (__init__ uuid8 cid port mr mm).1)
  ∧ (∀ (s : UDP_Client) (env : handler_env),
       ratchet_inv s → ratchet_inv (object_of (handle_received_data env s))).
Proof.
  split.
  - intros. split; [|done]. intros i j a b _ Ha. by destruct i.
  - intros s env Hinv.
    destruct (handle_step s env) as (rs & Hlen & Hch & -> & _).
    destruct rs as [|r [|r' rs]]; simpl in *; [done| |lia].
    apply ratchet_inv_accept; tauto.
Qed.

(** [last_processed_id] starts at [-1] and no method lowers it. *)
Lemma reachable_floor (s : UDP_Client) :
  reachable s → num_le (PInt (-1)) (last_processed_id s).
Proof.
  assert (Hchain : ∀ last rs, num_le (PInt (-1)) last → chain last rs →
            num_le (PInt (-1)) (last_id last rs)).
  { intros last rs Hle Hch. destruct (chain_last_id last rs Hch) as [->|Hgt]; [done|].
    apply num_gt_lt in Hgt. apply xlt_xle. by apply xle_lt_trans with (num_val last). }
  induction 1 as [uuid8 cid port mr mm|s env _ IH|s t _ IH|s now _ IH|s env _ IH].
  - simpl. by apply num_le_int.
  - destruct (handle_step s env) as (rs & _ & Hch & -> & _).
    rewrite last_accept_all. by apply Hchain.
  - destruct (should_exit_result t s) as (out & -> & _). done.
  - by destruct (cleanup_session now s) as [_ ->].
  - destruct (run_client_session env s) as (rs & Hch & _ & ->). by apply Hchain.
Qed.

(** C10. In a session that the class can reach, a datagram whose
    [message_id] is missing, or is a number that is at most [-1], is not
    accepted: the handler returns with the object as it was, having printed
    and sent nothing. *)
Theorem stale_id_never_accepted (s : UDP_Client) (env : handler_env)
    (d : datagram) (m : gmap string json) :
  reachable s → delivers env d m →
  m !! "message_id" = None
  ∨ (∃ n, m !! "message_id" = Some (JNum n) ∧ num_le n (PInt (-1))) →
  num_le (PInt (-1)) (last_processed_id s)
  ∧ handle_received_data env s = (Return tt, s, [RecvFrom 1024]).
Proof.
  intros Hreach Hd Hid. pose proof (reachable_floor s Hreach) as Hfloor.
  split; [done|]. rewrite (handle_object s env d m Hd).
  assert (∃ n, message_id_of m = JNum n ∧ num_le n (PInt (-1))) as (n & -> & Hle).
  { unfold message_id_of, field. destruct Hid as [->|(n & -> & Hle)]; simpl; [|by eauto].
    exists (PInt (-1)). split; [done|]. by apply num_le_int. }
  rewrite num_gt_false_of_le; [done|].
  by apply xle_trans with (num_val (PInt (-1))).
Qed.

Lemma ratchet_inv_chain (rs : list ReceivedRecord) (s : UDP_Client) :
  ratchet_inv s → chain (last_processed_id s) rs → ratchet_inv (accept_all rs s).
Proof.
  revert s. induction rs as [|r rs IH]; intros s Hinv; simpl; [done|].
  intros [Hgt Hch]. apply IH; [by apply ratchet_inv_accept|done].
Qed.

(** The invariant holds in every object that the class can reach. *)
Lemma reachable_ratchet_inv (s : UDP_Client) : reachable s → ratchet_inv s.
Proof.
  assert (Hsame : ∀ s s' : UDP_Client,
            received_messages s' = received_messages s →
            last_processed_id s' = last_processed_id s →
            ratchet_inv s → ratchet_inv s').
  { intros s1 s2 Hr Hl [H1 H2]. split; by rewrite Hr, ?Hl. }
  induction 1 as [uuid8 cid port mr mm|s env _ IH|s t _ IH|s now _ IH|s env _ IH].
  - split; [|done]. intros i j a b _ Ha. by destruct i.
  - destruct (handle_step s env) as (rs & _ & Hch & -> & _).
    by apply ratchet_inv_chain.
  - destruct (should_exit_result t s) as (out & -> & _). done.
  - destruct (cleanup_session now s) as [Hr Hl]. by apply (Hsame s).
  - destruct (run_client_session env s) as (rs & Hch & Hr & Hl).
    apply (Hsame (accept_all rs s)).
    + by rewrite received_accept_all.
    + by rewrite last_accept_all.
    + by apply ratchet_inv_chain.
Qed.

(** ** Duplicates *)

Lemma xlt_xle_refl (a b : xreal) : xlt a b → xle b b.
Proof. destruct a, b; simpl; try done; intros _; apply Qle_refl. Qed.

Lemma num_eq_above (a b n : pynum) :
  num_gt a b = true → num_eq b n = true → num_eq a n = false.
Proof.
  unfold num_eq. rewrite num_gt_lt, andb_true_iff, andb_false_iff.
  fold (num_ge b n) (num_ge n b) (num_ge n a). rewrite !num_ge_le.
  intros Hba [Hnb _]. right.
  destruct (num_ge n a) eqn:E; [|done]. apply num_ge_le in E.
  destruct (xle_not_lt _ _ E). by apply xle_lt_trans with (num_val b).
Qed.

Lemma num_eq_below (a n : pynum) : num_gt n a = true → num_eq a n = false.
Proof.
  unfold num_eq. rewrite num_gt_lt, andb_false_iff. intros Han. left.
  fold (num_ge a n). destruct (num_ge a n) eqn:E; [|done]. apply num_ge_le in E.
  by destruct (xle_not_lt _ _ E).
Qed.

Lemma num_eq_refl (a n : pynum) : num_gt n a = true → num_eq n n = true.
Proof.
  unfold num_eq. rewrite num_gt_lt, andb_true_iff. fold (num_ge n n).
  rewrite num_ge_le. intros H. split; by apply xlt_xle_refl with (num_val a).
Qed.

Lemma with_id_none (n : pynum) (rs : list ReceivedRecord) :
  Forall (λ r, num_eq (message_id r) n = false) rs → with_id n rs = [].
Proof.
  unfold with_id. induction 1 as [|r rs Hr _ IH]; [done|].
  rewrite filter_cons_False; [done|]. by rewrite Hr.
Qed.

(** The records of a chain that come before its end lie at or below it. *)
Lemma chain_below (last : pynum) (rs : list ReceivedRecord) :
  chain last rs →
  Forall (λ r, message_id r = last_id last rs
               ∨ num_gt (last_id last rs) (message_id r) = true) rs.
Proof.
  revert last. induction rs as [|r rs IH]; intros last; simpl; [constructor|].
  intros [Hgt Hch]. constructor; [|by apply IH].
  destruct (chain_last_id _ _ Hch) as [->|?]; auto.
Qed.

(** A chain holds each id once. *)
Lemma chain_with_id (last : pynum) (rs1 rs2 : list ReceivedRecord) (r : ReceivedRecord) :
  chain last (rs1 ++ r :: rs2) → with_id (message_id r) (rs1 ++ r :: rs2) = [r].
Proof.
  rewrite chain_app. simpl. intros (Hch1 & Hgt & Hch2).
  unfold with_id. rewrite filter_app, filter_cons_True
    by (by apply num_eq_refl with (last_id last rs1)).
  fold (with_id (message_id r) rs1) (with_id (message_id r) rs2).
  rewrite !with_id_none; [done| |].
  - eapply Forall_impl; [by apply chain_above|]. simpl. intros x Hx.
    apply num_eq_above with (message_id r); [done|].
    by apply num_eq_refl with (last_id last rs1).
  - eapply Forall_impl; [by apply chain_below|]. simpl. intros x [->|Hx].
    + by apply num_eq_below.
    + apply num_eq_below. by apply num_gt_trans with (last_id last rs1).
Qed.

Lemma chain_with_id_le (last n : pynum) (rs : list ReceivedRecord) :
  chain last rs → (length (with_id n rs) ≤ 1)%nat.
Proof.
  revert last. induction rs as [|r rs IH]; intros last; simpl; [lia|].
  intros [Hgt Hch]. unfold with_id.
  destruct (num_eq (message_id r) n) eqn:E.
  - rewrite filter_cons_True by done. fold (with_id n rs).
    rewrite with_id_none; [simpl; lia|].
    eapply Forall_impl; [by apply chain_above|]. simpl. intros x Hx.
    by apply num_eq_above with (message_id r).
  - rewrite filter_cons_False by (by rewrite E). by apply IH with (message_id r).
Qed.

(** A message that is newer when it is delivered leaves its record. *)
Lemma dispatch_delivered (t1 rest : list handler_env) (e1 : handler_env)
    (s : UDP_Client) (d : datagram) (m : gmap string json) (n : pynum) :
  result_of (dispatch t1 s) = Return tt →
  delivers e1 d m → message_id_of m = JNum n →
  num_gt n (last_processed_id (object_of (dispatch t1 s))) = true →
  ∃ rs1 rs3,
    received_messages (object_of (dispatch (t1 ++ e1 :: rest) s))
    = received_messages s ++ rs1 ++ record_of e1 d m n :: rs3.
Proof.
  intros Hres Hd Hmid Hgt. rewrite dispatch_app.
  destruct (dispatch_steps t1 s) as (rs1 & _ & _ & Hobj1 & _).
  destruct (dispatch t1 s) as [[r1 s1] o1].
  unfold result_of, object_of in *; cbn [fst snd] in *. subst r1 s1.
  rewrite dispatch_cons.
  destruct (handle_newer (accept_all rs1 s) e1 d m n Hd Hmid Hgt) as (Hobj2 & _).
  destruct (handle_received_data e1 (accept_all rs1 s)) as [[r2 s2] o2].
  unfold object_of in Hobj2; simpl in Hobj2. subst s2.
  destruct r2 as [[]|e].
  - destruct (dispatch_steps rest (accept (record_of e1 d m n) (accept_all rs1 s)))
      as (rs3 & _ & _ & Hobj3 & _).
    destruct (dispatch rest _) as [[r3 s3] o3].
    unfold object_of in Hobj3; simpl in *. subst s3.
    exists rs1, rs3. rewrite received_accept_all. simpl.
    by rewrite received_accept_all, <- !app_assoc.
  - exists rs1, []. simpl. by rewrite received_accept_all, <- app_assoc.
Qed.

(** C2, amended. Over any sequence of deliveries the handler appends a chain
    of records and acknowledges each of them once, in order; no id has more
    than one record.  An id that is delivered twice, and is greater than
    [last_processed_id] when it is first delivered, has exactly one record,
    that of its first delivery.  [last_processed_id] ends as the greatest id
    among its old value and the accepted records, and is never lowered. *)
Theorem dedup_at_most_once (s : UDP_Client) (tr : list handler_env) :
  ∃ new : list ReceivedRecord,
    received_messages (object_of (dispatch tr s)) = received_messages s ++ new
    ∧ acks (effects_of (dispatch tr s)) = ack_of (client_id s) <$> new
    ∧ (∀ n, (length (with_id n new) ≤ 1)%nat)
    ∧ (∀ n t1 e1 t2 e2 t3 d1 m1 d2 m2,
         tr = t1 ++ e1 :: t2 ++ e2 :: t3 →
         delivers e1 d1 m1 → message_id_of m1 = JNum n →
         delivers e2 d2 m2 → message_id_of m2 = JNum n →
         result_of (dispatch t1 s) = Return tt →
         num_gt n (last_processed_id (object_of (dispatch t1 s))) = true →
         with_id n new = [record_of e1 d1 m1 n])
    ∧ last_processed_id (object_of (dispatch tr s))
      = max_id (last_processed_id s) new
    ∧ (last_processed_id (object_of (dispatch tr s)) = last_processed_id s
       ∨ num_gt (last_processed_id (object_of (dispatch tr s)))
                (last_processed_id s) = true).
Proof.
  destruct (dispatch_steps tr s) as (new & _ & Hch & Hobj & Hack & _).
  exists new. rewrite Hobj, Hack, received_accept_all, last_accept_all.
  split; [done|]. split; [done|]. split; [|split; [|split]].
  - intros n. by apply chain_with_id_le with (last_processed_id s).
  - intros n t1 e1 t2 e2 t3 d1 m1 d2 m2 -> Hd1 Hm1 _ _ Hres Hgt.
    destruct (dispatch_delivered t1 (t2 ++ e2 :: t3) e1 s d1 m1 n Hres Hd1 Hm1 Hgt)
      as (rs1 & rs3 & Hrecv).
    rewrite Hobj, received_accept_all in Hrecv. apply app_inv_head in Hrecv.
    subst new. by apply (chain_with_id _ rs1 rs3 (record_of e1 d1 m1 n)) in Hch.
  - by rewrite chain_max_id.
  - by apply chain_last_id.
Qed.

(** ** Runs that go on *)

Lemma running_frame (env : run_env) (c c1 : UDP_Client) (o1 : list effect) :
  run_client env c = RUNNING c1 o1 →
  start_time c1 = Some (time_time (started env))
  ∧ registered c1 = registered c
  ∧ max_runtime c1 = max_runtime c
  ∧ max_messages c1 = max_messages c
  ∧ client_id c1 = client_id c
  ∧ execution_stats c1
    = <["start_time" := StatStr (isoformat (started env))]> (execution_stats c).
Proof.
  intros Hrun. apply run_client_running in Hrun.
  destruct (event_loop_steps (turns env) (begin env c)) as (rs & _ & Hobj & _).
  rewrite Hrun in Hobj. unfold object_of in Hobj; simpl in Hobj. subst c1.
  apply frame_begin_loop.
Qed.

Lemma extend_running (env : run_env) (more : list iteration)
    (c c1 c2 : UDP_Client) (o1 o2 : list effect) :
  run_client env c = RUNNING c1 o1 →
  event_loop more c1 = (Return Turning, c2, o2) →
  run_client (extend env more) c = RUNNING c2 (o1 ++ o2).
Proof.
  intros Hrun Hmore. apply run_client_running in Hrun. apply run_client_running.
  unfold extend, begin in *; simpl in *. by rewrite event_loop_app, Hrun, Hmore.
Qed.

Lemma extend_stopping (env : run_env) (more : list iteration)
    (c c1 : UDP_Client) (o1 : list effect) :
  registered c = true →
  run_client env c = RUNNING c1 o1 →
  run_client (extend env more) c =
    match event_loop more c1 with
    | (Return Turning, c2, o2) => RUNNING c2 (o1 ++ o2)
    | (Return Broke, c2, o2) =>
        STOPPED (Return tt) (cleaned (stopped env) (runtime_seconds env) c2)
          (o1 ++ o2 ++ summary (runtime_seconds env) c2)
    | (Raise KeyboardInterrupt, c2, o2) =>
        STOPPED (Return tt) (cleaned (stopped env) (runtime_seconds env) c2)
          (o1 ++ o2 ++ Printed NInterrupt :: summary (runtime_seconds env) c2)
    | (Raise e, c2, o2) =>
        STOPPED (Raise e) (cleaned (stopped env) (runtime_seconds env) c2)
          (o1 ++ o2 ++ summary (runtime_seconds env) c2)
    end.
Proof.
  intros Hreg Hrun. rewrite run_client_result by done.
  apply run_client_running in Hrun.
  unfold extend, begin, runtime_seconds in *; simpl in *.
  rewrite event_loop_app, Hrun.
  by destruct (event_loop more c1) as [[[[]|e] c2] o2]; rewrite <- ?app_assoc.
Qed.

(** A turn in which no bound is reached and [select] reports the events
    [events]. *)
Lemma event_loop_turn (turn : iteration) (rest : list iteration) (c1 : UDP_Client)
    (t0 : spec_float) (events : list handler_env) :
  start_time c1 = Some t0 →
  bound_reached (PFloat (float_sub (current_time turn) t0)) c1 = false →
  select turn = Return events →
  event_loop (turn :: rest) c1 =
    match dispatch events c1 with
    | (Return _, c2, o2) =>
        match event_loop rest c2 with
        | (r, c3, o3) => (r, c3, o2 ++ o3)
        end
    | (Raise e, c2, o2) => (Raise e, c2, o2)
    end.
Proof.
  intros Ht0 Hno Hsel. rewrite event_loop_cons, Ht0.
  destruct (should_exit_result (PFloat (float_sub (current_time turn) t0)) c1)
    as (o & -> & _ & _ & Ho).
  rewrite Hno in *. rewrite (Ho eq_refl), Hsel. simpl.
  destruct (dispatch events c1) as [[[[]|e] c2] o2]; [|done].
  by destruct (event_loop rest c2) as [[r c3] o3].
Qed.

(** A turn in which a bound is reached. *)
Lemma event_loop_break (turn : iteration) (rest : list iteration) (c1 : UDP_Client)
    (t0 : spec_float) :
  start_time c1 = Some t0 →
  bound_reached (PFloat (float_sub (current_time turn) t0)) c1 = true →
  ∃ o, event_loop (turn :: rest) c1 = (Return Broke, c1, o)
       ∧ acks o = [] ∧ receives o = [].
Proof.
  intros Ht0 Hyes. rewrite event_loop_cons, Ht0.
  destruct (should_exit_result (PFloat (float_sub (current_time turn) t0)) c1)
    as (o & -> & Ha & Hr & _).
  rewrite Hyes. eauto.
Qed.

(** C3. A datagram whose payload does not conform is dropped.  The handler
    raises nothing and hands nothing to its caller: it returns [None], and
    the failure shows only in the one error notice that its [except] clause
    prints.  The object is as it was and [sendto] is not called; the loop
    that dispatched the datagram goes on turning, with the notice in its
    output. *)
Theorem decode_failure_contained (s : UDP_Client) (env : handler_env) (d : datagram) :
  recvfrom env = Return d → nonconforming (data d) →
  (∃ x, handle_received_data env s = (Return tt, s, [RecvFrom 1024; Printed x])
        ∧ (x = NInvalidJson ∨ ∃ e, x = NError e))
  ∧ (∀ (run : run_env) (c : UDP_Client) (out1 : list effect) (turn : iteration),
       run_client run c = RUNNING s out1 →
       bound_reached (elapsed run turn) s = false →
       select turn = Return [env] →
       ∃ x, run_client (extend run [turn]) c
            = RUNNING s (out1 ++ [RecvFrom 1024; Printed x])).
Proof.
  intros Hrecv Hbad.
  destruct (handle_nonconforming s env d Hrecv Hbad) as (x & Hcall & Hx).
  split; [by exists x|].
  intros run c out1 turn Hrun Hno Hsel. exists x.
  apply (extend_running run [turn] c s s out1); [done|].
  destruct (running_frame run c s out1 Hrun) as (Ht0 & _).
  rewrite (event_loop_turn turn [] s _ [env] Ht0 Hno Hsel).
  by rewrite dispatch_cons, Hcall.
Qed.

(** C5. With [max_messages = 3] and three records received, the next turn
    of the loop ends the run, whatever [max_runtime] is: [run_client] returns
    after [cleanup], and that turn and the turns behind it call neither
    [recvfrom] nor [sendto] and leave the records as they were. *)
Theorem message_bound_stops_loop (uuid8 : string) (cid : option string) (port : Z)
    (mr : pynum) (env : run_env) (c1 : UDP_Client) (out1 : list effect)
    (turn : iteration) (rest : list iteration) :
  let c := (__init__ uuid8 cid port mr (PInt 3)).1 in
  run_client env c = RUNNING c1 out1 →
  (3 ≤ length (received_messages c1))%nat →
  ∃ c' out2,
    run_client (extend env (turn :: rest)) c = STOPPED (Return tt) c' (out1 ++ out2)
    ∧ received_messages c' = received_messages c1
    ∧ last_processed_id c' = last_processed_id c1
    ∧ receives out2 = [] ∧ acks out2 = [].
Proof.
  intros c Hrun Hlen.
  destruct (running_frame env c c1 out1 Hrun) as (Ht0 & _ & _ & Hmm & _).
  assert (Hyes : bound_reached
            (PFloat (float_sub (current_time turn) (time_time (started env)))) c1 = true).
  { unfold bound_reached. rewrite Hmm. change (max_messages c) with (PInt 3).
    assert (num_ge (PInt (Z.of_nat (length (received_messages c1)))) (PInt 3) = true)
      as -> by (apply num_ge_le, num_le_int; lia).
    assert (num_gt (PInt 3) (PInt 0) = true) as -> by (by apply num_gt_int).
    apply orb_true_r. }
  destruct (event_loop_break turn rest c1 _ Ht0 Hyes) as (o & Hloop & Ha & Hr).
  rewrite (extend_stopping env (turn :: rest) c c1 out1 eq_refl Hrun), Hloop.
  eexists _, _. split; [reflexivity|]. split; [done|]. split; [done|].
  by rewrite receives_app, acks_app, Ha, Hr.
Qed.

Lemma cleaned_released (now : clock) (runtime : spec_float) (c : UDP_Client) :
  registered (cleaned now runtime c) = false
  ∧ selector_open (cleaned now runtime c) = false
  ∧ client_socket_open (cleaned now runtime c) = false
  ∧ response_socket_open (cleaned now runtime c) = false
  ∧ received_messages (cleaned now runtime c) = received_messages c
  ∧ client_id (cleaned now runtime c) = client_id c.
Proof. done. Qed.

Lemma cleaned_stats (now : clock) (runtime : spec_float) (c : UDP_Client) :
  execution_stats (cleaned now runtime c) !! "client_id" = execution_stats c !! "client_id"
  ∧ execution_stats (cleaned now runtime c) !! "runtime_seconds"
    = Some (StatNum (PFloat runtime))
  ∧ execution_stats (cleaned now runtime c) !! "messages_received"
    = Some (StatNum (PInt (Z.of_nat (length (received_messages c)))))
  ∧ execution_stats (cleaned now runtime c) !! "received_messages" = Some StatMessages
  ∧ read_stats (cleaned now runtime c) !! "received_messages"
    = Some (ValRecords (received_messages c)).
Proof.
  unfold read_stats, cleaned. rewrite lookup_fmap. simpl. by simplify_map_eq.
Qed.

(** C8. When [run_client] has returned, [cleanup] has run: the socket is
    unregistered, the selector and both sockets are closed, and
    [execution_stats] holds the client id, the runtime, the number of
    records and the records (the list of the object itself, which reads as
    [received_messages]); the summary is the last thing printed.  A bound
    reached in a turn ends the run in that turn, and so does a
    [KeyboardInterrupt], raised by [select] or out of the handler. *)
Theorem cleanup_on_every_exit (uuid8 : string) (cid : option string) (port : Z)
    (mr mm : pynum) (env : run_env) :
  let c := (__init__ uuid8 cid port mr mm).1 in
  (∀ r c' out,
     run_client env c = STOPPED r c' out →
     r ≠ Raise KeyboardInterrupt
     ∧ registered c' = false ∧ selector_open c' = false
     ∧ client_socket_open c' = false ∧ response_socket_open c' = false
     ∧ execution_stats c' !! "client_id" = Some (StatStr (client_id c'))
     ∧ execution_stats c' !! "runtime_seconds"
       = Some (StatNum (PFloat (runtime_seconds env)))
     ∧ execution_stats c' !! "messages_received"
       = Some (StatNum (PInt (Z.of_nat (length (received_messages c')))))
     ∧ read_stats c' !! "received_messages"
       = Some (ValRecords (received_messages c'))
     ∧ ∃ out0, out = out0 ++ summary (runtime_seconds env) c')
  ∧ (∀ c1 out1 turn rest,
       run_client env c = RUNNING c1 out1 →
       bound_reached (elapsed env turn) c1 = true
       ∨ select turn = Raise KeyboardInterrupt
       ∨ (∃ events, select turn = Return events
                    ∧ result_of (dispatch events c1) = Raise KeyboardInterrupt) →
       ∃ c' out, run_client (extend env (turn :: rest)) c = STOPPED (Return tt) c' out).
Proof.
  intros c. split.
  - intros r c' out. rewrite run_client_result by done.
    destruct (event_loop_steps (turns env) (begin env c)) as (rs & _ & Hobj & _).
    destruct (event_loop (turns env) (begin env c)) as [[r1 c1] o1].
    unfold object_of in Hobj; simpl in Hobj. subst c1.
    destruct (frame_begin_loop env c rs) as (_ & _ & _ & _ & Hcid & Hstats).
    assert (Hgoal : ∀ r0 out0,
              r0 ≠ Raise KeyboardInterrupt →
              STOPPED r0 (cleaned (stopped env) (runtime_seconds env)
                            (accept_all rs (begin env c)))
                (out0 ++ summary (runtime_seconds env) (accept_all rs (begin env c)))
              = STOPPED r c' out →
              r ≠ Raise KeyboardInterrupt
              ∧ registered c' = false ∧ selector_open c' = false
              ∧ client_socket_open c' = false ∧ response_socket_open c' = false
              ∧ execution_stats c' !! "client_id" = Some (StatStr (client_id c'))
              ∧ execution_stats c' !! "runtime_seconds"
                = Some (StatNum (PFloat (runtime_seconds env)))
              ∧ execution_stats c' !! "messages_received"
                = Some (StatNum (PInt (Z.of_nat (length (received_messages c')))))
              ∧ read_stats c' !! "received_messages"
                = Some (ValRecords (received_messages c'))
              ∧ ∃ out0, out = out0 ++ summary (runtime_seconds env) c').
    { intros r0 out0 Hr0 [= <- <- <-].
      destruct (cleaned_stats (stopped env) (runtime_seconds env)
                  (accept_all rs (begin env c))) as (H1 & H2 & H3 & _ & H4).
      rewrite H1, H2, H3, H4, Hstats.
      do 5 (split; [done|]). split; [|do 3 (split; [done|]); by exists out0].
      simpl. rewrite Hcid. subst c. simpl.
      by destruct cid as [x|]; simpl; [case_decide|]; simplify_map_eq. }
    destruct r1 as [[]|e].
    + by apply Hgoal.
    + discriminate.
    + destruct e; try (by apply Hgoal).
      intros H. apply (Hgoal (Return tt) (o1 ++ [Printed NInterrupt])); [done|].
      rewrite <- H. by rewrite <- app_assoc.
  - intros c1 out1 turn rest Hrun Hexit.
    destruct (running_frame env c c1 out1 Hrun) as (Ht0 & _).
    rewrite (extend_stopping env (turn :: rest) c c1 out1 eq_refl Hrun).
    destruct (bound_reached (elapsed env turn) c1) eqn:Hb.
    + destruct (event_loop_break turn rest c1 _ Ht0 Hb) as (o & -> & _). eauto.
    + destruct Hexit as [?|[Hsel|(events & Hsel & Hres)]]; [done| |].
      * rewrite event_loop_cons, Ht0.
        destruct (should_exit_result
                    (PFloat (float_sub (current_time turn) (time_time (started env)))) c1)
          as (o & -> & _).
        unfold elapsed in Hb. rewrite Hb, Hsel. eauto.
      * rewrite (event_loop_turn turn rest c1 _ events Ht0 Hb Hsel).
        destruct (dispatch events c1) as [[r2 c2] o2].
        unfold result_of in Hres; simpl in Hres. subst r2. eauto.
Qed.

(** * Further properties *)

(** ** What the handler lets out and what it touches *)

(** An exception that leaves the handler is a [KeyboardInterrupt] that one
    of its calls raised. *)
Lemma handle_raise_interrupted (s : UDP_Client) (env : handler_env) (e : exn) :
  result_of (handle_received_data env s) = Raise e →
  e = KeyboardInterrupt ∧ interrupted env.
Proof.
  revert e. unfold interrupted. destruct (recvfrom env) as [d|e0] eqn:Hrecv.
  - destruct (data d) as [|e0|v] eqn:Hdata.
    + intros e. run. rewrite Hrecv; simpl. rewrite Hdata; simpl. discriminate.
    + intros e. run. rewrite Hrecv; simpl. rewrite Hdata; simpl.
      destruct e0; simpl; try discriminate. intros [= <-]. eauto 10.
    + destruct v as [|n|x|l|m];
        try (intros e; run; rewrite Hrecv; simpl; rewrite Hdata; simpl; discriminate).
      rewrite (handle_object s env d m); [|done].
      destruct (message_id_of m) as [|n| | |]; try (intros e; discriminate).
      destruct (num_gt n (last_processed_id s)); [|intros e; discriminate].
      unfold result_of, after_send; simpl.
      destruct (sendto env) as [[]|e0]; [intros e; discriminate|].
      destruct e0; simpl; try (intros e; discriminate). intros e [= <-]. auto.
  - intros e. run. rewrite Hrecv; simpl.
    destruct e0; simpl; try discriminate. intros [= <-]. auto.
Qed.

Lemma handle_calm (s : UDP_Client) (env : handler_env) :
  ¬ interrupted env → result_of (handle_received_data env s) = Return tt.
Proof.
  intros Hcalm.
  destruct (handle_step s env) as (_ & _ & _ & _ & _ & _ & [Hres|Hres]); [done|].
  by destruct (handle_raise_interrupted s env _ Hres) as [_ ?].
Qed.

Lemma ordinary_calm (env : handler_env) : ordinary env → ¬ interrupted env.
Proof.
  intros (H1 & H2 & H3) [H|[(d & Hd & Hp)|H]].
  - by apply H1 in H.
  - by apply (H2 d) in Hp.
  - by apply H3 in H.
Qed.

Lemma handle_error_notices (s : UDP_Client) (env : handler_env) :
  (length (error_notices (effects_of (handle_received_data env s))) ≤ 1)%nat.
Proof.
  destruct (recvfrom env) as [d|e] eqn:Hrecv.
  - destruct (data d) as [|e|v] eqn:Hdata.
    + run. rewrite Hrecv; simpl. rewrite Hdata; simpl. lia.
    + run. rewrite Hrecv; simpl. rewrite Hdata; simpl. destruct e; simpl; lia.
    + destruct v as [|n|x|l|m];
        try (run; rewrite Hrecv; simpl; rewrite Hdata; simpl; lia).
      rewrite (handle_object s env d m); [|done].
      destruct (message_id_of m) as [|n| | |]; try (simpl; lia).
      destruct (num_gt n (last_processed_id s)); [|simpl; lia].
      unfold effects_of, after_send; simpl. destruct (sendto env) as [[]|e]; simpl.
      * case_decide; simpl; lia.
      * destruct e; simpl; lia.
  - run. rewrite Hrecv; simpl. destruct e; simpl; lia.
Qed.

(** X1. The two [except] clauses catch every [Exception] raised inside the
    handler: what leaves an invocation, if anything, is not of class
    [Exception]; an invocation prints at most one error; and when its calls
    raise nothing but [Exception]s it returns. *)
Theorem handler_contains_exceptions (s : UDP_Client) (env : handler_env) :
  (∀ e, result_of (handle_received_data env s) = Raise e → is_Exception e = false)
  ∧ (length (error_notices (effects_of (handle_received_data env s))) ≤ 1)%nat
  ∧ (ordinary env → result_of (handle_received_data env s) = Return tt).
Proof.
  split; [|split].
  - intros e He. by destruct (handle_raise_interrupted s env e He) as [-> _].
  - apply handle_error_notices.
  - intros Hord. by apply handle_calm, ordinary_calm.
Qed.

(** X2. When [recvfrom] raises an [Exception], the handler prints one error
    and returns; the object is as it was and [sendto] is not called. *)
Theorem recvfrom_failure_contained (s : UDP_Client) (env : handler_env) (e : exn) :
  recvfrom env = Raise e → is_Exception e = true →
  ∃ x, handle_received_data env s = (Return tt, s, [RecvFrom 1024; Printed x])
       ∧ (x = NInvalidJson ∨ x = NError e).
Proof.
  intros Hrecv He. run. rewrite Hrecv; simpl.
  destruct e; try discriminate; simpl; eauto.
Qed.

(** X3. The handler assigns [last_processed_id] and appends to
    [received_messages], nothing else: the configuration, the selector and
    the sockets, [start_time] and the entries of [execution_stats] are the
    objects they were.  An entry that is a string or a number reads as
    before; the entry that [cleanup] stored under ["received_messages"] is
    the list itself and reads as the records after the invocation, the
    appended one among them. *)
Theorem handler_keeps_frame (s : UDP_Client) (env : handler_env) :
  let s' := object_of (handle_received_data env s) in
  frame s' = frame s
  ∧ ∀ key,
      read_stats s' !! key
      = match execution_stats s !! key with
        | Some StatMessages => Some (ValRecords (received_messages s'))
        | _ => read_stats s !! key
        end.
Proof.
  intros s'. subst s'.
  destruct (handle_step s env) as (rs & _ & _ & -> & _).
  split; [apply frame_accept_all|].
  intros key. unfold read_stats. rewrite !lookup_fmap.
  assert (execution_stats (accept_all rs s) = execution_stats s) as ->
    by (by injection (frame_accept_all rs s)).
  by destruct (execution_stats s !! key) as [[| |]|].
Qed.

(** X4. An invocation calls [recvfrom] once, for 1024 bytes, and calls
    [sendto] exactly when it appends a record: not at all, or once, for the
    record it appended. *)
Theorem handler_io_budget (s : UDP_Client) (env : handler_env) :
  receives (effects_of (handle_received_data env s)) = [1024]
  ∧ ((received_messages (object_of (handle_received_data env s)) = received_messages s
      ∧ acks (effects_of (handle_received_data env s)) = [])
     ∨ (∃ r, received_messages (object_of (handle_received_data env s))
             = received_messages s ++ [r]
             ∧ acks (effects_of (handle_received_data env s)) = [ack_of (client_id s) r])).
Proof.
  destruct (handle_step s env) as (rs & Hlen & _ & -> & -> & -> & _).
  split; [done|]. rewrite received_accept_all.
  destruct rs as [|r [|r' rs]]; simpl in *; [|right; by exists r|lia].
  left. by rewrite app_nil_r.
Qed.

(** X5. Fields other than [timestamp], [state] and [message_id] are ignored:
    two JSON objects that agree on these three are handled alike. *)
Theorem extra_fields_ignored (s : UDP_Client) (m m' : gmap string json)
    (a : string * Z) (now : string) (send : outcome unit) :
  same_fields m m' →
  handle_received_data (receiving m a now send) s
  = handle_received_data (receiving m' a now send) s.
Proof.
  intros (Hts & Hst & Hmid).
  rewrite (handle_object s _ (mkDatagram (Parsed (JObj m)) a) m) by done.
  rewrite (handle_object s _ (mkDatagram (Parsed (JObj m')) a) m') by done.
  unfold record_of, message_id_of, timestamp_of, state_of, field, after_send.
  simpl. by rewrite Hts, Hst, Hmid.
Qed.

(** X6. After an accepted message whose acknowledgment went out, the handler
    prints the length of the history, and from the fifth record on the states
    of the last five records, the newest last; before that it prints no
    states. *)
Theorem last_five_states_printed (s : UDP_Client) (env : handler_env)
    (d : datagram) (m : gmap string json) (n : pynum) :
  delivers env d m → message_id_of m = JNum n →
  num_gt n (last_processed_id s) = true → sendto env = Return tt →
  let out := effects_of (handle_received_data env s) in
  totals out = [S (length (received_messages s))]
  ∧ ((length (received_messages s) < 4)%nat → last_five out = [])
  ∧ ((4 ≤ length (received_messages s))%nat →
       ∃ l, last_five out = [l] ∧ length l = 5%nat ∧ last l = Some (state_of m)
            ∧ l = state <$> drop (length (received_messages s) - 4)
                              (received_messages s ++ [record_of env d m n])).
Proof.
  intros Hd Hmid Hgt Hsend out. subst out.
  rewrite (handle_object s env d m Hd), Hmid, Hgt.
  unfold effects_of, after_send. rewrite Hsend. simpl.
  rewrite length_app. simpl.
  replace (length (received_messages s) + 1)%nat
    with (S (length (received_messages s))) by lia.
  split; [by case_decide|]. split.
  - intros Hlt. case_decide; [lia|done].
  - intros Hge. case_decide; [|lia]. eexists. split; [reflexivity|].
    replace (S (length (received_messages s)) - 5)%nat
      with (length (received_messages s) - 4)%nat by lia.
    split; [|split; [|done]].
    + rewrite length_fmap, length_drop, length_app. simpl. lia.
    + rewrite drop_app_le by lia. rewrite fmap_app. simpl. by rewrite last_snoc.
Qed.

(** ** Whole runs *)

Lemma cleanup_quiet (now : clock) (s : UDP_Client) :
  acks (effects_of (cleanup now s)) = []
  ∧ receives (effects_of (cleanup now s)) = [].
Proof.
  unfold cleanup, since_start, unregister_and_close.
  unfold mbind, M_bind, attr, assign, print, perform, mret, M_ret, raise, effects_of.
  simpl. destruct (start_time s); simpl; [|done].
  destruct (registered s); simpl; [done|]. by destruct (client_socket_open s).
Qed.

(** What [run_client] leaves, by the chain of records its loop accepted. *)
Lemma run_client_trace (env : run_env) (s : UDP_Client) :
  ∃ rs, chain (last_processed_id s) rs
    ∧ received_messages (client_of (run_client env s)) = received_messages s ++ rs
    ∧ last_processed_id (client_of (run_client env s))
      = last_id (last_processed_id s) rs
    ∧ acks (effects_so_far (run_client env s)) = ack_of (client_id s) <$> rs.
Proof.
  destruct (event_loop_steps (turns env) (begin env s)) as (rs & Hch & Hobj & Hack).
  exists rs. split; [done|].
  assert (Hsess : received_messages (accept_all rs (begin env s))
                  = received_messages s ++ rs
                  ∧ last_processed_id (accept_all rs (begin env s))
                    = last_id (last_processed_id s) rs).
  { by rewrite received_accept_all, last_accept_all. }
  remember (run_client env s) as x eqn:Hx.
  unfold run_client in Hx. unfold mbind at 1 2, M_bind at 1 2, assign at 1 2 in Hx.
  fold (begin env s) in Hx.
  destruct (event_loop (turns env) (begin env s)) as [[r c1] o1].
  unfold object_of, effects_of in Hobj, Hack; simpl in Hobj, Hack. subst c1.
  change (client_id (begin env s)) with (client_id s) in Hack.
  destruct Hsess as [Hs1 Hs2].
  destruct r as [[]|e]; simpl in Hx; [|by subst x|destruct e; simpl in Hx];
    match type of Hx with
    | context [cleanup ?n ?c] =>
        destruct (cleanup_session n c) as [H3 H4];
        destruct (cleanup_quiet n c) as [H5 _];
        destruct (cleanup n c) as [[[?|?] c3] o3]
    end; subst x; unfold object_of, effects_of in *; simpl in *;
    rewrite H3, H4, acks_app;
    try change (acks (Printed NInterrupt :: o3)) with (acks o3);
    by rewrite H5, app_nil_r.
Qed.

(** X7. [run_client] only appends to [received_messages]: the records it
    found stay in place, those it adds have ids above the [last_processed_id]
    it found, growing strictly, and each was acknowledged once, in order. *)
Theorem run_appends_above_ratchet (env : run_env) (s : UDP_Client) :
  ∃ new : list ReceivedRecord,
    received_messages (client_of (run_client env s)) = received_messages s ++ new
    ∧ Forall (λ r, num_gt (message_id r) (last_processed_id s) = true) new
    ∧ increasing new
    ∧ acks (effects_so_far (run_client env s)) = ack_of (client_id s) <$> new.
Proof.
  destruct (run_client_trace env s) as (rs & Hch & Hrecv & _ & Hack).
  exists rs. split; [done|]. split; [by apply chain_above|]. split; [|done].
  clear Hrecv Hack. revert Hch. generalize (last_processed_id s).
  induction rs as [|r rs IH] using rev_ind; intros last Hch.
  - intros i j a b _ Ha. by destruct i.
  - apply chain_app in Hch as [Hch1 [Hgt _]].
    intros i j a b Hij Ha Hb.
    apply lookup_lt_Some in Hb as Hj. rewrite length_app in Hj. simpl in Hj.
    rewrite lookup_app_l in Ha by lia.
    destruct (decide (j < length rs)%nat) as [Hj'|Hj'].
    + rewrite lookup_app_l in Hb by done. by apply (IH last Hch1 i j).
    + assert (j = length rs) as -> by lia.
      rewrite lookup_app_r in Hb by lia. rewrite Nat.sub_diag in Hb. simpl in Hb.
      simplify_eq.
      destruct (increasing_below_last last rs i a (IH last Hch1) Ha) as [->|Hbelow];
        [done|]. by apply num_gt_trans with (last_id last rs).
Qed.

(** X8. When the run of a new client has stopped, the [messages_received]
    of its summary is the number of [sendto] calls the run made, whether a
    call returned or raised, and the summary's list holds one record for
    each call, in the order of the calls. *)
Theorem summary_counts_sendto_calls (uuid8 : string) (cid : option string)
    (port : Z) (mr mm : pynum) (env : run_env)
    (r : outcome unit) (c' : UDP_Client) (out : list effect) :
  run_client env (__init__ uuid8 cid port mr mm).1 = STOPPED r c' out →
  execution_stats c' !! "messages_received"
  = Some (StatNum (PInt (Z.of_nat (length (acks out)))))
  ∧ ∃ rs, read_stats c' !! "received_messages" = Some (ValRecords rs)
          ∧ acks out = ack_of (client_id c') <$> rs.
Proof.
  intros Hrun. set (c := (__init__ uuid8 cid port mr mm).1) in *.
  destruct (run_client_trace env c) as (rs & _ & Hrecv & _ & Hack).
  rewrite Hrun in Hrecv, Hack. simpl in Hrecv, Hack.
  rewrite run_client_result in Hrun by done.
  destruct (event_loop_steps (turns env) (begin env c)) as (rs' & _ & Hobj & _).
  destruct (event_loop (turns env) (begin env c)) as [[r1 c1] o1].
  unfold object_of in Hobj; simpl in Hobj. subst c1.
  assert (Hc' : c' = cleaned (stopped env) (runtime_seconds env)
                       (accept_all rs' (begin env c))).
  { destruct r1 as [[]|e]; [by simplify_eq|discriminate|destruct e; by simplify_eq]. }
  destruct (cleaned_stats (stopped env) (runtime_seconds env)
              (accept_all rs' (begin env c))) as (_ & _ & H3 & _ & H4).
  assert (Hrs : received_messages (accept_all rs' (begin env c)) = rs).
  { rewrite Hc' in Hrecv. simpl in Hrecv. by rewrite Hrecv. }
  rewrite Hc', H3, H4, Hrs, Hack, length_fmap. split; [done|].
  exists rs. split; [done|]. simpl. by rewrite client_id_accept_all.
Qed.

(** The records of a reachable object form a chain from [-1]. *)
Lemma reachable_chain (s : UDP_Client) :
  reachable s →
  chain (PInt (-1)) (received_messages s)
  ∧ last_processed_id s = last_id (PInt (-1)) (received_messages s).
Proof.
  assert (Hstep : ∀ (s : UDP_Client) rs,
            chain (PInt (-1)) (received_messages s)
            ∧ last_processed_id s = last_id (PInt (-1)) (received_messages s) →
            chain (last_processed_id s) rs →
            chain (PInt (-1)) (received_messages s ++ rs)
            ∧ last_id (last_processed_id s) rs
              = last_id (PInt (-1)) (received_messages s ++ rs)).
  { intros s0 rs [H1 H2] Hch. rewrite chain_app, <- H2. split; [done|].
    unfold last_id. by rewrite foldl_app, H2. }
  induction 1 as [uuid8 cid port mr mm|s env _ IH|s t _ IH|s now _ IH|s env _ IH].
  - done.
  - destruct (handle_step s env) as (rs & _ & Hch & -> & _).
    rewrite received_accept_all, last_accept_all. by apply Hstep.
  - destruct (should_exit_result t s) as (out & -> & _). done.
  - destruct (cleanup_session now s) as [-> ->]. done.
  - destruct (run_client_session env s) as (rs & Hch & -> & ->). by apply Hstep.
Qed.

(** X9. No record of a reachable object has an id of [-1] or less: a
    message without [message_id] never enters the history. *)
Theorem history_above_sentinel (s : UDP_Client) :
  reachable s →
  Forall (λ r, num_lt (PInt (-1)) (message_id r)) (received_messages s).
Proof.
  intros Hreach. destruct (reachable_chain s Hreach) as [Hch _].
  eapply Forall_impl; [by apply chain_above|]. simpl. intros r Hr.
  by apply num_gt_lt.
Qed.

(** ** [cleanup] and the ways out of the loop *)

(** X10. [cleanup] returns exactly when the client was started and its
    socket is registered; then the selector and the sockets are released and
    the statistics returned are those of the object.  When it raises, it has
    released nothing and printed nothing. *)
Theorem cleanup_all_or_nothing (now : clock) (s : UDP_Client) :
  ((∃ stats, result_of (cleanup now s) = Return stats)
   ↔ is_Some (start_time s) ∧ registered s = true)
  ∧ (∀ stats, result_of (cleanup now s) = Return stats →
       resources (object_of (cleanup now s)) = (false, false, false, false)
       ∧ stats = execution_stats (object_of (cleanup now s)))
  ∧ (∀ e, result_of (cleanup now s) = Raise e →
       resources (object_of (cleanup now s)) = resources s
       ∧ effects_of (cleanup now s) = []).
Proof.
  unfold cleanup, since_start, unregister_and_close.
  unfold mbind, M_bind, attr, assign, print, perform, mret, M_ret, raise,
    result_of, object_of, effects_of, resources.
  simpl. destruct (start_time s) as [t0|]; simpl.
  - destruct (registered s) eqn:Hreg; simpl.
    + split; [split; eauto|]. split; [by intros ? [= <-]|discriminate].
    + destruct (client_socket_open s) eqn:Hopen; simpl;
        (split; [split; [by intros [? ?]|by intros [_ ?]]|];
         split; [discriminate|]; intros e _; by rewrite Hreg, Hopen).
  - split; [split; [by intros [? ?]|by intros [[? ?] _]]|].
    split; [discriminate|done].
Qed.

(** X11. An exception of [select] that is not a [KeyboardInterrupt] ends the
    run: [cleanup] runs, nothing is printed about an interrupt, and the
    exception leaves [run_client]. *)
Theorem select_error_propagates (env : run_env) (c c1 : UDP_Client)
    (out1 : list effect) (turn : iteration) (rest : list iteration) (e : exn) :
  registered c = true →
  run_client env c = RUNNING c1 out1 →
  bound_reached (elapsed env turn) c1 = false →
  select turn = Raise e → e ≠ KeyboardInterrupt →
  run_client (extend env (turn :: rest)) c
  = STOPPED (Raise e) (cleaned (stopped env) (runtime_seconds env) c1)
      (out1 ++ summary (runtime_seconds env) c1).
Proof.
  intros Hreg Hrun Hno Hsel He.
  destruct (running_frame env c c1 out1 Hrun) as (Ht0 & _).
  rewrite (extend_stopping env (turn :: rest) c c1 out1 Hreg Hrun).
  rewrite event_loop_cons, Ht0.
  destruct (should_exit_result
              (PFloat (float_sub (current_time turn) (time_time (started env)))) c1)
    as (o & -> & _ & _ & Ho).
  unfold elapsed in Hno. rewrite Hno in *. rewrite (Ho eq_refl), Hsel.
  by destruct e.
Qed.

(** X12. With [max_runtime] above 0, the first turn whose elapsed time
    exceeds it ends the run, whatever [max_messages] is and whatever waits on
    the socket: the runtime notice is printed, then the summary, and the
    records are as they were. *)
Theorem runtime_bound_stops_loop (env : run_env) (c c1 : UDP_Client)
    (out1 : list effect) (turn : iteration) (rest : list iteration) :
  registered c = true →
  run_client env c = RUNNING c1 out1 →
  num_lt (PInt 0) (max_runtime c) →
  num_lt (max_runtime c) (elapsed env turn) →
  run_client (extend env (turn :: rest)) c
  = STOPPED (Return tt) (cleaned (stopped env) (runtime_seconds env) c1)
      (out1 ++ Printed (NMaxRuntime (max_runtime c))
            :: summary (runtime_seconds env) c1).
Proof.
  intros Hreg Hrun Hpos Hover.
  destruct (running_frame env c c1 out1 Hrun) as (Ht0 & _ & Hmr & _).
  rewrite (extend_stopping env (turn :: rest) c c1 out1 Hreg Hrun).
  rewrite event_loop_cons, Ht0.
  apply num_gt_lt in Hpos, Hover. unfold elapsed in Hover.
  unfold should_exit, mbind, M_bind, attr, print, perform, mret, M_ret. simpl.
  by rewrite Hmr, Hpos, Hover.
Qed.

Lemma frame_dispatch (events : list handler_env) (s : UDP_Client) :
  frame (object_of (dispatch events s)) = frame s.
Proof.
  destruct (dispatch_steps events s) as (rs & _ & _ & -> & _). apply frame_accept_all.
Qed.

Lemma dispatch_calm (events : list handler_env) (s : UDP_Client) :
  Forall (λ ev, ¬ interrupted ev) events → result_of (dispatch events s) = Return tt.
Proof.
  intros Hcalm. revert s. induction Hcalm as [|ev events Hev _ IH]; intros s; [done|].
  rewrite dispatch_cons. pose proof (handle_calm s ev Hev) as Hres.
  destruct (handle_received_data ev s) as [[r1 s1] o1].
  unfold result_of in Hres; simpl in Hres. subst r1.
  specialize (IH s1). by destruct (dispatch events s1) as [[r2 s2] o2].
Qed.

Lemma event_loop_calm (turns : list iteration) (s : UDP_Client) :
  is_Some (start_time s) →
  num_gt (max_runtime s) (PInt 0) = false →
  num_gt (max_messages s) (PInt 0) = false →
  Forall calm turns →
  ∃ c1 o1, event_loop turns s = (Return Turning, c1, o1).
Proof.
  intros Ht0 Hmr Hmm Hcalm. revert s Ht0 Hmr Hmm.
  induction Hcalm as [|turn rest (events & Hsel & Hevs) _ IH]; intros s [t0 Ht0] Hmr Hmm.
  - by eexists _, _.
  - assert (Hno : bound_reached (PFloat (float_sub (current_time turn) t0)) s = false).
    { unfold bound_reached. by rewrite Hmr, Hmm. }
    rewrite (event_loop_turn turn rest s t0 events Ht0 Hno Hsel).
    pose proof (dispatch_calm events s Hevs) as Hres.
    pose proof (frame_dispatch events s) as Hframe.
    destruct (dispatch events s) as [[r2 c2] o2].
    unfold result_of, object_of in *; simpl in *. subst r2.
    injection Hframe as _ _ Hmr' Hmm' _ _ _ _ Ht0' _.
    destruct (IH c2) as (c3 & o3 & ->);
      [rewrite Ht0', Ht0; by eexists|by rewrite Hmr'|by rewrite Hmm'|].
    by eexists _, _.
Qed.

(** X13. With neither bound above 0 (0 is "unlimited", and so is a negative
    value), [run_client] does not return by itself: as long as [select]
    returns and no [KeyboardInterrupt] arrives, the loop keeps turning. *)
Theorem unlimited_loop_keeps_turning (env : run_env) (c : UDP_Client) :
  ¬ num_lt (PInt 0) (max_runtime c) → ¬ num_lt (PInt 0) (max_messages c) →
  Forall calm (turns env) →
  ∃ c1 out1, run_client env c = RUNNING c1 out1.
Proof.
  intros Hmr Hmm Hcalm.
  destruct (event_loop_calm (turns env) (begin env c)) as (c1 & o1 & Hloop).
  - by eexists.
  - simpl. destruct (num_gt (max_runtime c) (PInt 0)) eqn:E; [|done].
    by apply num_gt_lt in E.
  - simpl. destruct (num_gt (max_messages c) (PInt 0)) eqn:E; [|done].
    by apply num_gt_lt in E.
  - done.
  - exists c1, o1. by apply run_client_running.
Qed.

(** X14. A run that has stopped is not affected by further turns: nothing
    more is read from the selector or the clock. *)
Theorem stopped_run_is_final (env : run_env) (more : list iteration)
    (c c' : UDP_Client) (r : outcome unit) (out : list effect) :
  run_client env c = STOPPED r c' out →
  run_client (extend env more) c = STOPPED r c' out.
Proof.
  intros Hrun. unfold run_client, extend in *. cbn [started turns stopped] in *.
  unfold mbind, M_bind, assign in *. rewrite event_loop_app.
  by destruct (event_loop (turns env) _) as [[[[]|e] c1] o1].
Qed.

(** X15. Further turns continue a run from where it stood: the records it
    held stay in front of those of the longer run, and so does its output. *)
Theorem longer_run_extends (env : run_env) (more : list iteration)
    (c c1 : UDP_Client) (out1 : list effect) :
  run_client env c = RUNNING c1 out1 →
  ∃ new out2,
    received_messages (client_of (run_client (extend env more) c))
    = received_messages c1 ++ new
    ∧ effects_so_far (run_client (extend env more) c) = out1 ++ out2.
Proof.
  intros Hrun. apply run_client_running in Hrun. unfold begin in Hrun.
  remember (run_client (extend env more) c) as x eqn:Hx.
  unfold run_client, extend in Hx. cbn [started turns stopped] in Hx.
  unfold mbind, M_bind, assign in Hx. rewrite event_loop_app, Hrun in Hx.
  destruct (event_loop_steps more c1) as (rs & _ & Hobj & _).
  destruct (event_loop more c1) as [[r c2] o2].
  unfold object_of in Hobj; simpl in Hobj. subst c2.
  exists rs.
  destruct r as [[]|e]; simpl in Hx;
    [|subst x; simpl; rewrite received_accept_all; by eauto|destruct e; simpl in Hx];
    match type of Hx with
    | context [cleanup ?n ?c0] =>
        destruct (cleanup_session n c0) as [H3 _];
        destruct (cleanup n c0) as [[[?|?] c3] o3]
    end; subst x; unfold object_of in *; simpl in *;
    rewrite H3, received_accept_all, <- app_assoc; by eauto.
Qed.

Lemma run_client_records (env : run_env) (s : UDP_Client) :
  received_messages (client_of (run_client env s))
  = received_messages (object_of (event_loop (turns env) (begin env s))).
Proof.
  remember (run_client env s) as x eqn:Hx.
  unfold run_client in Hx. unfold mbind at 1 2, M_bind at 1 2, assign at 1 2 in Hx.
  fold (begin env s) in Hx.
  destruct (event_loop (turns env) (begin env s)) as [[r c1] o1].
  unfold object_of; simpl.
  destruct r as [[]|e]; simpl in Hx; [|by subst x|destruct e; simpl in Hx];
    match type of Hx with
    | context [cleanup ?n ?c0] =>
        destruct (cleanup_session n c0) as [H3 _];
        destruct (cleanup n c0) as [[[?|?] c3] o3]
    end; by subst x.
Qed.

Lemma event_loop_bounded (turns : list iteration) (s : UDP_Client) (k : Z) :
  max_messages s = PInt k → 0 < k →
  Z.of_nat (length (received_messages s)) ≤ k →
  Forall single turns →
  Z.of_nat (length (received_messages (object_of (event_loop turns s)))) ≤ k.
Proof.
  intros Hmm Hk Hlen Hsingle. revert s Hmm Hlen.
  induction Hsingle as [|turn rest Hone _ IH]; intros s Hmm Hlen; [done|].
  rewrite event_loop_cons. destruct (start_time s) as [t0|]; [|done].
  destruct (should_exit_result (PFloat (float_sub (current_time turn) t0)) s)
    as (o & -> & _).
  destruct (bound_reached _ s) eqn:Hb; [done|].
  destruct (select turn) as [events|e] eqn:Hsel; [|done].
  assert (Hroom : Z.of_nat (length (received_messages s)) < k).
  { unfold bound_reached in Hb. apply orb_false_iff in Hb as [_ Hb].
    rewrite Hmm in Hb.
    assert (num_gt (PInt k) (PInt 0) = true) as Hpos by (by apply num_gt_int).
    rewrite Hpos, andb_true_l in Hb.
    destruct (decide (Z.of_nat (length (received_messages s)) < k)); [done|].
    assert (num_ge (PInt (Z.of_nat (length (received_messages s)))) (PInt k) = true)
      as Hge by (apply num_ge_le, num_le_int; lia).
    congruence. }
  destruct (dispatch_steps events s) as (rs & Hrs & _ & Hobj & _).
  pose proof (Hone events Hsel) as Hle.
  pose proof (frame_dispatch events s) as Hframe.
  destruct (dispatch events s) as [[r2 c2] o2].
  unfold object_of in *; simpl in Hobj, Hframe.
  injection Hframe as _ _ _ Hmm' _ _ _ _ _ _.
  assert (Hlen2 : Z.of_nat (length (received_messages c2)) ≤ k).
  { rewrite Hobj, received_accept_all, length_app. lia. }
  destruct r2 as [[]|e]; [|done].
  specialize (IH c2). destruct (event_loop rest c2) as [[r3 c3] o3]. simpl in *.
  apply IH; [by rewrite Hmm'|done].
Qed.

(** X16. A new client with [max_messages = k] above 0 never holds more than
    [k] records, provided each turn has at most one ready socket, as with
    the single socket the client registers. *)
Theorem never_more_than_max_messages (uuid8 : string) (cid : option string)
    (port : Z) (mr : pynum) (k : Z) (env : run_env) :
  0 < k → Forall single (turns env) →
  Z.of_nat (length (received_messages
                      (client_of (run_client env (__init__ uuid8 cid port mr (PInt k)).1))))
  ≤ k.
Proof.
  intros Hk Hsingle. rewrite run_client_records.
  apply event_loop_bounded; [done|done|simpl; lia|done].
Qed.

Lemma num_gt_infinity (a : pynum) : num_gt a infinity = false.
Proof. unfold num_gt. simpl. by destruct (num_val a). Qed.

(** X17. The ratchet has no upper end.  A message whose id is [Infinity],
    which [json.loads] reads as a float, is accepted in any session whose
    [last_processed_id] is below it; from then on no datagram is accepted,
    acknowledged or recorded. *)
Theorem infinite_id_blocks_ratchet :
  (∀ (s : UDP_Client) (env : handler_env) (d : datagram) (m : gmap string json),
     delivers env d m → message_id_of m = JNum infinity →
     num_lt (last_processed_id s) infinity →
     last_processed_id (object_of (handle_received_data env s)) = infinity
     ∧ received_messages (object_of (handle_received_data env s))
       = received_messages s ++ [record_of env d m infinity])
  ∧ (∀ (s : UDP_Client) (tr : list handler_env),
       last_processed_id s = infinity →
       last_processed_id (object_of (dispatch tr s)) = infinity
       ∧ received_messages (object_of (dispatch tr s)) = received_messages s
       ∧ acks (effects_of (dispatch tr s)) = []).
Proof.
  split.
  - intros s env d m Hd Hmid Hlt. apply num_gt_lt in Hlt.
    by destruct (handle_newer s env d m infinity Hd Hmid Hlt) as (-> & _).
  - intros s tr Hlast.
    destruct (dispatch_steps tr s) as (rs & _ & Hch & -> & -> & _).
    destruct rs as [|r rs].
    + by simpl.
    + destruct Hch as [Hgt _]. rewrite Hlast, num_gt_infinity in Hgt. discriminate.
Qed.

Lemma append_cancel (s a b : string) : s +:+ a = s +:+ b → a = b.
Proof. induction s as [|x s IH]; simpl; [done|]. intros [= H]. by apply IH. Qed.

(** X18. The acknowledgment names the message: for one client, the payloads
    for two integer ids are equal only if the ids are. *)
Theorem response_names_message (cid : string) (a b : Z) :
  response cid (PInt a) = response cid (PInt b) → a = b.
Proof.
  unfold response. intros H.
  do 3 apply append_cancel in H. simpl in H. by apply pretty_Z_inj in H.
Qed.

Lemma dispatch_receives (events : list handler_env) (s : UDP_Client) :
  ∃ k, (k ≤ length events)%nat
    ∧ receives (effects_of (dispatch events s)) = replicate k 1024
    ∧ (result_of (dispatch events s) = Return tt → k = length events).
Proof.
  revert s. induction events as [|ev events IH]; intros s.
  - by exists 0%nat.
  - rewrite dispatch_cons.
    destruct (handle_step s ev) as (_ & _ & _ & _ & _ & Hr1 & _).
    destruct (handle_received_data ev s) as [[r1 s1] o1].
    unfold effects_of, result_of in *; simpl in Hr1.
    destruct r1 as [[]|e].
    + destruct (IH s1) as (k & Hk & Hr2 & Hall).
      destruct (dispatch events s1) as [[r2 s2] o2]. simpl in *.
      exists (S k). rewrite receives_app, Hr1, Hr2. split; [lia|]. split; [done|].
      intros Hres. by rewrite (Hall Hres).
    + exists 1%nat. simpl. split; [lia|]. by rewrite Hr1.
Qed.

(** X19. The events that [select] reports are handled in order, with one
    [recvfrom] each, up to the first handler that a [KeyboardInterrupt]
    leaves; the events behind it are not read. *)
Theorem one_recvfrom_per_event (events : list handler_env) (s : UDP_Client) :
  (result_of (dispatch events s) = Return tt →
   receives (effects_of (dispatch events s)) = replicate (length events) 1024)
  ∧ (∀ before ev behind,
       events = before ++ ev :: behind →
       result_of (dispatch before s) = Return tt →
       result_of (handle_received_data ev (object_of (dispatch before s)))
       = Raise KeyboardInterrupt →
       dispatch events s = dispatch (before ++ [ev]) s
       ∧ receives (effects_of (dispatch events s))
         = replicate (S (length before)) 1024).
Proof.
  split.
  - intros Hres. destruct (dispatch_receives events s) as (k & _ & -> & Hall).
    by rewrite (Hall Hres).
  - intros before ev behind -> Hbefore Hev.
    assert (Heq : dispatch (before ++ ev :: behind) s = dispatch (before ++ [ev]) s).
    { rewrite !dispatch_app.
      destruct (dispatch before s) as [[[[]|e] s1] o1]; [|done].
      rewrite !dispatch_cons. unfold object_of, result_of in Hev; simpl in Hev.
      destruct (handle_received_data ev s1) as [[r2 s2] o2]. simpl in Hev.
      by subst r2. }
    split; [done|]. rewrite Heq, dispatch_app.
    destruct (dispatch_receives before s) as (k & _ & Hr & Hall).
    specialize (Hall Hbefore). subst k.
    destruct (dispatch before s) as [[r1 s1] o1].
    unfold result_of, object_of, effects_of in *; cbn [fst snd] in *. subst r1.
    rewrite dispatch_cons.
    destruct (handle_step s1 ev) as (_ & _ & _ & _ & _ & Hr2 & _).
    destruct (handle_received_data ev s1) as [[r2 s2] o2].
    unfold effects_of in Hr2; cbn [fst snd] in *. subst r2. cbn [fst snd].
    rewrite receives_app, Hr, Hr2.
    change [1024] with (replicate 1 1024). rewrite <- replicate_add.
    f_equal. lia.
Qed.

(** ** The cell below the class *)

(** X20. When [run_client] has returned to the cell, [client_results] has
    exactly the seven entries [client_id], [port], [start_time], [end_time],
    [runtime_seconds], [messages_received] and [received_messages]; the
    client id is the one papermill passed, or the generated one when it
    passed none, and the port is the one passed. *)
Theorem notebook_results (uuid_cell uuid_init : string) (p : parameters)
    (env : run_env) (out0 : list effect) (c' : UDP_Client) (out : list effect) :
  notebook uuid_cell uuid_init p env = (out0, STOPPED (Return tt) c' out) →
  dom (client_results (STOPPED (Return tt) c' out))
  = ({["client_id"; "port"; "start_time"; "end_time"; "runtime_seconds";
       "messages_received"; "received_messages"]} : gset string)
  ∧ client_results (STOPPED (Return tt) c' out) !! "client_id"
    = Some (StatStr (client_id c'))
  ∧ client_results (STOPPED (Return tt) c' out) !! "port"
    = Some (StatNum (PInt (param_client_port p)))
  ∧ client_results (STOPPED (Return tt) c' out) !! "start_time"
    = Some (StatStr (isoformat (started env)))
  ∧ client_results (STOPPED (Return tt) c' out) !! "end_time"
    = Some (StatStr (isoformat (stopped env)))
  ∧ (∀ s, param_client_id p = Some s → s ≠ "" → client_id c' = s)
  ∧ (param_client_id p = None → uuid_cell ≠ "" → client_id c' = uuid_cell).
Proof.
  unfold notebook, client_results.
  set (cid := match param_client_id p with Some s => s | None => uuid_cell end).
  set (c := (__init__ uuid_init (Some cid) (param_client_port p)
               (param_max_runtime p) (param_max_messages p)).1).
  change (__init__ uuid_init (Some cid) (param_client_port p)
            (param_max_runtime p) (param_max_messages p))
    with (c, [Printed (NStarted (client_id c) (client_port c)
                         (max_runtime c) (max_messages c))]).
  intros [= _ Hrun]. rewrite run_client_result in Hrun by done.
  destruct (event_loop_steps (turns env) (begin env c)) as (rs & _ & Hobj & _).
  destruct (event_loop (turns env) (begin env c)) as [[r1 c1] o1].
  unfold object_of in Hobj; simpl in Hobj. subst c1.
  assert (Hc' : c' = cleaned (stopped env) (runtime_seconds env)
                       (accept_all rs (begin env c))).
  { destruct r1 as [[]|e]; [by simplify_eq|discriminate|destruct e; by simplify_eq]. }
  destruct (frame_begin_loop env c rs) as (_ & _ & _ & _ & Hcid & Hstats).
  assert (Hid : client_id c' = if decide (cid = "") then uuid_init else cid).
  { rewrite Hc'. simpl. by rewrite Hcid. }
  assert (Hex : execution_stats c'
                = <["received_messages" := StatMessages]>
                    (<["messages_received" :=
                        StatNum (PInt (Z.of_nat (length (received_messages
                                                           (accept_all rs (begin env c))))))]>
                       (<["runtime_seconds" := StatNum (PFloat (runtime_seconds env))]>
                          (<["end_time" := StatStr (isoformat (stopped env))]>
                             (<["start_time" := StatStr (isoformat (started env))]>
                                (<["port" := StatNum (PInt (param_client_port p))]>
                                   (<["client_id" := StatStr (client_id c')]> ∅))))))).
  { rewrite Hc'. unfold cleaned. simpl. rewrite Hstats, Hcid. done. }
  cbn [client_of]. rewrite Hex. split; [|split; [|split; [|split; [|split; [|split]]]]].
  - rewrite !dom_insert_L, dom_empty_L. set_solver.
  - by simplify_map_eq.
  - by simplify_map_eq.
  - by simplify_map_eq.
  - by simplify_map_eq.
  - intros s Hs Hne. rewrite Hid. subst cid. rewrite Hs.
    destruct (decide (s = "")); congruence.
  - intros Hnone Hne. rewrite Hid. subst cid. rewrite Hnone.
    destruct (decide (uuid_cell = "")); congruence.
Qed.

(** ** The waiting indicator *)

(** X21. The waiting indicator never leaves its four glyphs.  Started at an
    index below 4 and given elapsed times that are finite, it runs through
    any number of turns without raising; the k-th line it writes shows the
    glyph k places further in the cycle [| / - *], and the index ends that
    many places further. *)
Theorem indicator_cycles (steps : list (spec_float * spec_float)) (w : indicator) :
  (indicator_index w < 4)%nat →
  Forall (λ step, is_Some (py_int step.2)) steps →
  ∃ lines w',
    run_indicator steps w = Some (lines, w')
    ∧ indicator_index w' = ((indicator_index w + length lines) mod 4)%nat
    ∧ ∀ k line, lines !! k = Some line →
        ∃ glyph secs,
          waiting_indicator !! ((indicator_index w + k) mod 4)%nat = Some glyph
          ∧ line = waiting_line glyph secs.
Proof.
  intros Hidx Hfinite. revert w Hidx.
  induction Hfinite as [|[current_time elapsed_time] steps [secs Hsecs] _ IH];
    intros w Hidx.
  - exists [], w. split; [done|]. split; [|done].
    cbn [length]. rewrite Nat.add_0_r. by rewrite Nat.mod_small.
  - cbn [snd] in Hsecs. cbn [run_indicator]. unfold update_indicator.
    destruct (num_gt _ (PFloat half_second)).
    + destruct (waiting_indicator !! indicator_index w) as [glyph|] eqn:Hglyph.
      2:{ apply lookup_ge_None in Hglyph. cbn [waiting_indicator length] in Hglyph. lia. }
      rewrite Hsecs.
      change (length waiting_indicator) with 4%nat.
      destruct (IH (mkIndicator ((indicator_index w + 1) mod 4) current_time))
        as (lines & w' & Hrun & Hend & Hlines).
      { cbn [indicator_index]. apply Nat.mod_upper_bound. lia. }
      cbn [indicator_index] in Hend, Hlines.
      cbn [mbind option_bind]. rewrite Hrun. cbn [mbind option_bind option_list].
      eexists _, _. split; [reflexivity|]. split.
      * rewrite Hend. unfold option_list. cbn [option_rect app length].
        rewrite Nat.Div0.add_mod_idemp_l. f_equal. lia.
      * intros [|k] line Hline; unfold option_list in Hline;
          cbn [option_rect app] in Hline.
        -- cbn in Hline. simplify_eq. exists glyph, secs.
           rewrite Nat.add_0_r, Nat.mod_small by done. done.
        -- cbn in Hline. destruct (Hlines k line Hline) as (g & z & Hg & ->).
           exists g, z. split; [|done].
           rewrite Nat.Div0.add_mod_idemp_l in Hg.
           by replace (indicator_index w + S k)%nat
             with (indicator_index w + 1 + k)%nat by lia.
    + cbn [mbind option_bind]. destruct (IH w Hidx) as (lines & w' & -> & Hend & Hlines).
      cbn [mbind option_bind option_list app]. by eexists _, _.
Qed.

End Client.

(** * Instances *)

(** C2 as stated fails: in the session that has accepted id 5, id 3
    delivered twice appends no record and sends no acknowledgment, not one
    of each. *)
Lemma dedup_exactly_once_counterexample :
  let s := object_of (handle_received_data no_float_repr (sample_env 5) sample_client) in
  let call := dispatch no_float_repr [sample_env 3; sample_env 3] s in
  last_processed_id s = PInt 5
  ∧ received_messages (object_of call) = received_messages s
  ∧ acks (effects_of call) = []
  ∧ length (with_id (PInt 3) (received_messages (object_of call))) ≠ 1%nat
  ∧ length (acks (effects_of call)) ≠ 1%nat.
Proof. vm_compute. repeat split; discriminate. Qed.

(** C3 as stated fails: for bytes that are not UTF-8 the handler raises no
    decode error; it returns [None], as it does for a message that is not
    newer, and leaves the same object.  Its caller is handed nothing that
    tells the two apart: the failure is one line on the console. *)
Lemma decode_error_reported_counterexample :
  let failed := handle_received_data no_float_repr sample_garbage sample_client in
  let dropped := handle_received_data no_float_repr (sample_env (-1)) sample_client in
  recvfrom sample_garbage = Return (mkDatagram Undecodable ("192.168.1.10", 50000))
  ∧ nonconforming (data (mkDatagram Undecodable ("192.168.1.10", 50000)))
  ∧ (∀ e, result_of failed ≠ Raise e)
  ∧ result_of failed = Return tt
  ∧ result_of failed = result_of dropped
  ∧ object_of failed = object_of dropped
  ∧ effects_of failed = [RecvFrom 1024; Printed (NError UnicodeDecodeError)]
  ∧ effects_of dropped = [RecvFrom 1024].
Proof.
  split; [reflexivity|]. split; [apply not_text|].
  split; [intros e; discriminate|]. by repeat split.
Qed.

Lemma accepted_iff_newer_witness :
  delivers (sample_env 5) (sample_datagram 5) (sample_message 5)
  ∧ ((∃ r, received_messages
             (object_of (handle_received_data no_float_repr (sample_env 5) sample_client))
           = received_messages sample_client ++ [r])
     ↔ newer (message_id_of (sample_message 5)) (last_processed_id sample_client)).
Proof.
  split; [by split|].
  destruct (accepted_iff_newer no_float_repr) as [general _].
  apply (general sample_client (sample_env 5) (sample_datagram 5) (sample_message 5)).
  by split.
Defined.

Lemma dedup_at_most_once_witness :
  ∃ new : list ReceivedRecord,
    received_messages
      (object_of (dispatch no_float_repr [sample_env 7; sample_env 7] sample_client))
    = received_messages sample_client ++ new
    ∧ (length (with_id (PInt 7) new) ≤ 1)%nat.
Proof.
  destruct (dedup_at_most_once no_float_repr sample_client [sample_env 7; sample_env 7])
    as (new & Hrecv & _ & Hle & _).
  exists new. split; [exact Hrecv|apply Hle].
Defined.

Lemma decode_failure_contained_witness :
  recvfrom sample_garbage = Return (mkDatagram Undecodable ("192.168.1.10", 50000))
  ∧ nonconforming (data (mkDatagram Undecodable ("192.168.1.10", 50000)))
  ∧ ∃ x, handle_received_data no_float_repr sample_garbage sample_client
         = (Return tt, sample_client, [RecvFrom 1024; Printed x]).
Proof.
  split; [reflexivity|]. split; [apply not_text|].
  destruct (decode_failure_contained no_float_repr sample_client sample_garbage
              (mkDatagram Undecodable ("192.168.1.10", 50000)) eq_refl not_text)
    as [(x & Hx & _) _].
  exists x. exact Hx.
Defined.

Lemma message_bound_stops_loop_witness :
  let c := (__init__ "1a2b3c4d" (Some "listener") 37020 (PInt 300) (PInt 3)).1 in
  let c1 := client_of (run_client no_float_repr sample_run c) in
  let out1 := effects_so_far (run_client no_float_repr sample_run c) in
  run_client no_float_repr sample_run c = RUNNING c1 out1
  ∧ (3 ≤ length (received_messages c1))%nat
  ∧ ∃ c' out2,
      run_client no_float_repr (extend sample_run [sample_turn 104 [sample_env 3]]) c
      = STOPPED (Return tt) c' (out1 ++ out2)
      ∧ received_messages c' = received_messages c1
      ∧ last_processed_id c' = last_processed_id c1
      ∧ receives out2 = [] ∧ acks out2 = [].
Proof.
  split; [vm_compute; reflexivity|]. split; [vm_compute; lia|].
  apply (message_bound_stops_loop no_float_repr "1a2b3c4d" (Some "listener") 37020
           (PInt 300) sample_run).
  - vm_compute; reflexivity.
  - vm_compute; lia.
Defined.

Lemma ack_sent_once_best_effort_witness :
  delivers (sample_unreachable 4) (sample_datagram 4) (sample_message 4)
  ∧ message_id_of (sample_message 4) = JNum (PInt 4)
  ∧ num_gt (PInt 4) (last_processed_id sample_client) = true
  ∧ acks (effects_of (handle_received_data no_float_repr (sample_unreachable 4) sample_client))
    = [("Client listener received message 4", "192.168.1.10", 50000)]
  ∧ last_processed_id
      (object_of (handle_received_data no_float_repr (sample_unreachable 4) sample_client))
    = PInt 4.
Proof.
  split; [by split|]. split; [reflexivity|]. split; [reflexivity|].
  destruct (ack_sent_once_best_effort no_float_repr sample_client (sample_unreachable 4)
              (sample_datagram 4) (sample_message 4) (PInt 4))
    as (Hack & Hlast & _); [by split|reflexivity|reflexivity|].
  split; [exact Hack|exact Hlast].
Defined.

Lemma missing_fields_default_witness :
  delivers sample_anonymous
    (mkDatagram (Parsed (JObj (<["state" := JStr "ACTIVE"]> ∅))) ("192.168.1.10", 50000))
    (<["state" := JStr "ACTIVE"]> ∅)
  ∧ result_of (handle_received_data no_float_repr sample_anonymous sample_client)
    = Return tt
  ∧ error_notices
      (effects_of (handle_received_data no_float_repr sample_anonymous sample_client))
    = []
  ∧ delivers (sample_bare 7)
      (mkDatagram (Parsed (JObj (<["message_id" := JNum (PInt 7)]> ∅)))
         ("192.168.1.10", 50000))
      (<["message_id" := JNum (PInt 7)]> ∅)
  ∧ ∃ r,
      received_messages
        (object_of (handle_received_data no_float_repr (sample_bare 7) sample_client))
      = received_messages sample_client ++ [r]
      ∧ timestamp r = JStr "unknown" ∧ state r = JStr "unknown"
      ∧ message_id r = PInt 7.
Proof.
  destruct (missing_fields_default no_float_repr) as (_ & _ & handler & defaults & _).
  split; [by split|].
  destruct (handler sample_client sample_anonymous
              (mkDatagram (Parsed (JObj (<["state" := JStr "ACTIVE"]> ∅)))
                 ("192.168.1.10", 50000))
              (<["state" := JStr "ACTIVE"]> ∅)) as [Hres Herr];
    [by split|left; reflexivity|reflexivity|].
  split; [exact Hres|]. split; [exact Herr|]. split; [by split|].
  exists (mkRecord "192.168.1.10" 50000 (JStr "unknown") "2025-03-01T10:00:01"
            (JStr "unknown") (PInt 7)).
  split; [reflexivity|].
  destruct (defaults sample_client (sample_bare 7)
              (mkDatagram (Parsed (JObj (<["message_id" := JNum (PInt 7)]> ∅)))
                 ("192.168.1.10", 50000))
              (<["message_id" := JNum (PInt 7)]> ∅)) as [_ Hrecord]; [by split|].
  destruct (Hrecord (mkRecord "192.168.1.10" 50000 (JStr "unknown") "2025-03-01T10:00:01"
                       (JStr "unknown") (PInt 7)) eq_refl)
    as (Hts & Hst & _).
  split; [apply Hts; reflexivity|]. split; [apply Hst; reflexivity|reflexivity].
Defined.

Lemma cleanup_on_every_exit_witness :
  run_client no_float_repr idle_run sample_client
  = RUNNING (client_of (run_client no_float_repr idle_run sample_client))
      (effects_so_far (run_client no_float_repr idle_run sample_client))
  ∧ select (mkIteration (seconds 102) (Raise KeyboardInterrupt)) = Raise KeyboardInterrupt
  ∧ ∃ c' out,
      run_client no_float_repr
        (extend idle_run [mkIteration (seconds 102) (Raise KeyboardInterrupt)])
        sample_client
      = STOPPED (Return tt) c' out.
Proof.
  split; [vm_compute; reflexivity|]. split; [reflexivity|].
  destruct (cleanup_on_every_exit no_float_repr "1a2b3c4d" (Some "listener") 37020
              (PInt 300) (PInt 3) idle_run) as [_ exits].
  apply (exits (client_of (run_client no_float_repr idle_run sample_client))
           (effects_so_far (run_client no_float_repr idle_run sample_client))).
  - vm_compute; reflexivity.
  - right. left. reflexivity.
Defined.

Lemma ratchet_invariant_witness :
  ratchet_inv sample_client
  ∧ ratchet_inv (object_of (handle_received_data no_float_repr (sample_env 5) sample_client)).
Proof.
  destruct (ratchet_invariant no_float_repr) as [initial step].
  split; [apply initial|]. apply step. apply initial.
Defined.

Lemma stale_id_never_accepted_witness :
  reachable no_float_repr sample_client
  ∧ delivers sample_anonymous
      (mkDatagram (Parsed (JObj (<["state" := JStr "ACTIVE"]> ∅))) ("192.168.1.10", 50000))
      (<["state" := JStr "ACTIVE"]> ∅)
  ∧ handle_received_data no_float_repr sample_anonymous sample_client
    = (Return tt, sample_client, [RecvFrom 1024]).
Proof.
  split; [apply reach_init|]. split; [by split|].
  apply (stale_id_never_accepted no_float_repr sample_client sample_anonymous
           (mkDatagram (Parsed (JObj (<["state" := JStr "ACTIVE"]> ∅)))
              ("192.168.1.10", 50000))
           (<["state" := JStr "ACTIVE"]> ∅)).
  - apply reach_init.
  - by split.
  - left. reflexivity.
Defined.

(** Text that is not JSON is dropped with the notice of the first [except]
    clause. *)
Example invalid_json_dropped :
  handle_received_data no_float_repr sample_invalid_json sample_client
  = (Return tt, sample_client, [RecvFrom 1024; Printed NInvalidJson]).
Proof. reflexivity. Qed.

(** The ids 0, 1 and 2 received by a listener with [max_messages = 3]: the
    fourth turn ends the run with three records, [last_processed_id = 2] and
    three acknowledgments. *)
Example three_messages_then_stop :
  let r := run_client no_float_repr (extend sample_run [sample_turn 104 [sample_env 3]])
             sample_client in
  message_id <$> received_messages (client_of r) = [PInt 0; PInt 1; PInt 2]
  ∧ last_processed_id (client_of r) = PInt 2
  ∧ acks (effects_so_far r)
    = [("Client listener received message 0", "192.168.1.10", 50000);
       ("Client listener received message 1", "192.168.1.10", 50000);
       ("Client listener received message 2", "192.168.1.10", 50000)]
  ∧ execution_stats (client_of r) !! "messages_received" = Some (StatNum (PInt 3))
  ∧ registered (client_of r) = false.
Proof. vm_compute. repeat split. Qed.

(** ** Instances of the further properties *)

(** The list under ["received_messages"] is the list of the object.  In a
    listener that has stopped with no record, an invocation that accepts a
    message shows its record in [execution_stats]; the count stored under
    ["messages_received"] stays at 0. *)
Example stats_hold_the_list_itself :
  let c := client_of (run_client no_float_repr late_run sample_client) in
  let c' := object_of (handle_received_data no_float_repr (sample_env 0) c) in
  read_stats c !! "received_messages" = Some (ValRecords [])
  ∧ execution_stats c' = execution_stats c
  ∧ read_stats c' !! "received_messages" = Some (ValRecords (received_messages c'))
  ∧ message_id <$> received_messages c' = [PInt 0]
  ∧ read_stats c' !! "messages_received" = Some (ValNum (PInt 0)).
Proof. vm_compute. repeat split. Qed.

Lemma recvfrom_failure_contained_witness :
  recvfrom sample_socket_error = Raise OSError
  ∧ is_Exception OSError = true
  ∧ ∃ x, handle_received_data no_float_repr sample_socket_error sample_client
         = (Return tt, sample_client, [RecvFrom 1024; Printed x])
         ∧ (x = NInvalidJson ∨ x = NError OSError).
Proof.
  split; [reflexivity|]. split; [reflexivity|].
  apply (recvfrom_failure_contained no_float_repr sample_client sample_socket_error OSError);
    reflexivity.
Defined.

Lemma extra_fields_ignored_witness :
  same_fields (sample_extended 1) (sample_message 1)
  ∧ handle_received_data no_float_repr
      (receiving (sample_extended 1) ("192.168.1.10", 50000) "2025-03-01T10:00:01" (Return tt))
      sample_client
    = handle_received_data no_float_repr
        (receiving (sample_message 1) ("192.168.1.10", 50000) "2025-03-01T10:00:01" (Return tt))
        sample_client.
Proof.
  split; [by repeat split|].
  apply (extra_fields_ignored no_float_repr). by repeat split.
Defined.

Lemma last_five_states_printed_witness :
  let s := object_of (dispatch no_float_repr
                        [sample_env 0; sample_env 1; sample_env 2; sample_env 3]
                        sample_client) in
  delivers (sample_env 4) (sample_datagram 4) (sample_message 4)
  ∧ num_gt (PInt 4) (last_processed_id s) = true
  ∧ totals (effects_of (handle_received_data no_float_repr (sample_env 4) s)) = [5%nat].
Proof.
  intros s. split; [by split|]. split; [reflexivity|].
  destruct (last_five_states_printed no_float_repr s (sample_env 4) (sample_datagram 4)
              (sample_message 4) (PInt 4)) as [Htotal _];
    [by split|reflexivity|reflexivity|reflexivity|].
  exact Htotal.
Defined.

Lemma summary_counts_sendto_calls_witness :
  let run := run_client no_float_repr
               (extend sample_run [sample_turn 104 []])
               (__init__ "1a2b3c4d" (Some "listener") 37020 (PInt 300) (PInt 3)).1 in
  run = STOPPED (Return tt) (client_of run) (effects_so_far run)
  ∧ execution_stats (client_of run) !! "messages_received"
    = Some (StatNum (PInt (Z.of_nat (length (acks (effects_so_far run)))))).
Proof.
  intros run. split; [vm_compute; reflexivity|].
  destruct (summary_counts_sendto_calls no_float_repr "1a2b3c4d" (Some "listener")
              37020 (PInt 300) (PInt 3) (extend sample_run [sample_turn 104 []])
              (Return tt) (client_of run) (effects_so_far run)) as [Hcount _];
    [vm_compute; reflexivity|].
  exact Hcount.
Defined.

Lemma history_above_sentinel_witness :
  reachable no_float_repr
    (object_of (handle_received_data no_float_repr (sample_env 0) sample_client))
  ∧ Forall (λ r, num_lt (PInt (-1)) (message_id r))
      (received_messages
         (object_of (handle_received_data no_float_repr (sample_env 0) sample_client))).
Proof.
  split; [apply reach_handle, reach_init|].
  apply (history_above_sentinel no_float_repr). apply reach_handle, reach_init.
Defined.

Lemma select_error_propagates_witness :
  let run := run_client no_float_repr idle_run sample_client in
  registered sample_client = true
  ∧ run = RUNNING (client_of run) (effects_so_far run)
  ∧ select failing_turn = Raise OSError
  ∧ run_client no_float_repr (extend idle_run [failing_turn]) sample_client
    = STOPPED (Raise OSError)
        (cleaned (stopped idle_run) (runtime_seconds idle_run) (client_of run))
        (effects_so_far run ++ summary (runtime_seconds idle_run) (client_of run)).
Proof.
  intros run. split; [reflexivity|]. split; [vm_compute; reflexivity|].
  split; [reflexivity|].
  apply (select_error_propagates no_float_repr idle_run sample_client (client_of run)
           (effects_so_far run) failing_turn [] OSError).
  - reflexivity.
  - vm_compute; reflexivity.
  - vm_compute; reflexivity.
  - reflexivity.
  - discriminate.
Defined.

Lemma runtime_bound_stops_loop_witness :
  let run := run_client no_float_repr idle_run sample_client in
  run = RUNNING (client_of run) (effects_so_far run)
  ∧ num_lt (max_runtime sample_client) (elapsed idle_run (sample_turn 500 [sample_env 0]))
  ∧ run_client no_float_repr (extend idle_run [sample_turn 500 [sample_env 0]]) sample_client
    = STOPPED (Return tt)
        (cleaned (stopped idle_run) (runtime_seconds idle_run) (client_of run))
        (effects_so_far run ++ Printed (NMaxRuntime (max_runtime sample_client))
           :: summary (runtime_seconds idle_run) (client_of run)).
Proof.
  intros run. split; [vm_compute; reflexivity|]. split; [vm_compute; reflexivity|].
  apply (runtime_bound_stops_loop no_float_repr idle_run sample_client (client_of run)
           (effects_so_far run) (sample_turn 500 [sample_env 0]) []).
  - reflexivity.
  - vm_compute; reflexivity.
  - vm_compute; reflexivity.
  - vm_compute; reflexivity.
Defined.

Lemma unlimited_loop_keeps_turning_witness :
  ¬ num_lt (PInt 0) (max_runtime unlimited_client)
  ∧ Forall calm (turns late_run)
  ∧ ∃ c1 out1, run_client no_float_repr late_run unlimited_client = RUNNING c1 out1.
Proof.
  assert (Hzero : ¬ num_lt (PInt 0) (PInt 0)) by (vm_compute; discriminate).
  assert (Hcalm : Forall calm (turns late_run)).
  { repeat constructor. exists []. split; [reflexivity|constructor]. }
  split; [exact Hzero|]. split; [exact Hcalm|].
  apply (unlimited_loop_keeps_turning no_float_repr late_run unlimited_client);
    [exact Hzero|exact Hzero|exact Hcalm].
Defined.

Lemma stopped_run_is_final_witness :
  let run := run_client no_float_repr late_run sample_client in
  run = STOPPED (Return tt) (client_of run) (effects_so_far run)
  ∧ run_client no_float_repr (extend late_run [sample_turn 502 [sample_env 0]]) sample_client
    = STOPPED (Return tt) (client_of run) (effects_so_far run).
Proof.
  intros run. split; [vm_compute; reflexivity|].
  apply (stopped_run_is_final no_float_repr late_run). vm_compute; reflexivity.
Defined.

Lemma longer_run_extends_witness :
  let run := run_client no_float_repr idle_run sample_client in
  run = RUNNING (client_of run) (effects_so_far run)
  ∧ ∃ new out2,
      received_messages
        (client_of (run_client no_float_repr
                      (extend idle_run [sample_turn 102 [sample_env 0]]) sample_client))
      = received_messages (client_of run) ++ new
      ∧ effects_so_far (run_client no_float_repr
                          (extend idle_run [sample_turn 102 [sample_env 0]]) sample_client)
        = effects_so_far run ++ out2.
Proof.
  intros run. split; [vm_compute; reflexivity|].
  apply (longer_run_extends no_float_repr idle_run). vm_compute; reflexivity.
Defined.

Lemma never_more_than_max_messages_witness :
  0 < 3
  ∧ Forall single (turns sample_run)
  ∧ Z.of_nat (length (received_messages
                        (client_of (run_client no_float_repr sample_run
                                      (__init__ "1a2b3c4d" (Some "listener") 37020
                                         (PInt 300) (PInt 3)).1)))) ≤ 3.
Proof.
  assert (Hsingle : Forall single (turns sample_run)).
  { simpl. repeat (constructor; [intros events [= <-]; simpl; lia|]). constructor. }
  split; [lia|]. split; [exact Hsingle|].
  apply (never_more_than_max_messages no_float_repr); [lia|exact Hsingle].
Defined.

Lemma infinite_id_blocks_ratchet_witness :
  delivers (receiving sample_infinite ("192.168.1.10", 50000) "2025-03-01T10:00:01" (Return tt))
    (mkDatagram (Parsed (JObj sample_infinite)) ("192.168.1.10", 50000)) sample_infinite
  ∧ num_lt (last_processed_id sample_client) infinity
  ∧ last_processed_id
      (object_of (handle_received_data no_float_repr
                    (receiving sample_infinite ("192.168.1.10", 50000)
                       "2025-03-01T10:00:01" (Return tt))
                    sample_client))
    = infinity.
Proof.
  split; [by split|]. split; [vm_compute; exact I|].
  destruct (infinite_id_blocks_ratchet no_float_repr) as [accepted _].
  apply (accepted sample_client _
           (mkDatagram (Parsed (JObj sample_infinite)) ("192.168.1.10", 50000))
           sample_infinite).
  - by split.
  - reflexivity.
  - vm_compute; exact I.
Defined.

Lemma response_names_message_witness :
  response no_float_repr "listener" (PInt 12) = response no_float_repr "listener" (PInt 12)
  ∧ 12 = 12.
Proof.
  split; [reflexivity|].
  apply (response_names_message no_float_repr "listener"). reflexivity.
Defined.

Lemma notebook_results_witness :
  let run := (notebook no_float_repr "0c1d2e3f" "4a5b6c7d" default_parameters late_run).2 in
  notebook no_float_repr "0c1d2e3f" "4a5b6c7d" default_parameters late_run
  = ([Printed (NStarted "0c1d2e3f" 37020 (PInt 300) (PInt 0))],
     STOPPED (Return tt) (client_of run) (effects_so_far run))
  ∧ client_id (client_of run) = "0c1d2e3f".
Proof.
  intros run. split; [vm_compute; reflexivity|].
  destruct (notebook_results no_float_repr "0c1d2e3f" "4a5b6c7d" default_parameters late_run
              [Printed (NStarted "0c1d2e3f" 37020 (PInt 300) (PInt 0))]
              (client_of run) (effects_so_far run)) as (_ & _ & _ & _ & _ & _ & Hid);
    [vm_compute; reflexivity|].
  apply Hid; [reflexivity|discriminate].
Defined.

Lemma indicator_cycles_witness :
  (indicator_index (mkIndicator 0 (seconds 1)) < 4)%nat
  ∧ Forall (λ step, is_Some (py_int step.2)) [(seconds 2, seconds 1); (seconds 3, seconds 2)]
  ∧ ∃ lines w',
      run_indicator [(seconds 2, seconds 1); (seconds 3, seconds 2)]
        (mkIndicator 0 (seconds 1)) = Some (lines, w')
      ∧ indicator_index w' = ((0 + length lines) mod 4)%nat.
Proof.
  assert (Hfinite : Forall (λ step, is_Some (py_int step.2))
                      [(seconds 2, seconds 1); (seconds 3, seconds 2)]).
  { repeat constructor; by eexists. }
  split; [simpl; lia|]. split; [exact Hfinite|].
  destruct (indicator_cycles [(seconds 2, seconds 1); (seconds 3, seconds 2)]
              (mkIndicator 0 (seconds 1))) as (lines & w' & Hrun & Hend & _);
    [simpl; lia|exact Hfinite|].
  exists lines, w'. split; [exact Hrun|exact Hend].
Defined.

(** The indicator over two turns a second apart writes two lines. *)
Example indicator_two_lines :
  run_indicator [(seconds 2, seconds 1); (seconds 3, seconds 2)] (mkIndicator 0 (seconds 1))
  = Some ([waiting_line "|" 1; waiting_line "/" 2], mkIndicator 2 (seconds 3)).
Proof. vm_compute. reflexivity. Qed.
